(** * Tusday.com: boards, columns, tasks and cells

    A shallow embedding of the task-board application: the SQLAlchemy
    models of [models.py], the table controller of [ui/tasks.py], the
    board sidebar of [ui/boards.py], the dashboard of [dashboard.py] and
    the login and signup handlers of [auth.py].

    Conventions of the embedding.
    - Python [int] is [Z]; [str] is [string]; [None] for an object
      reference is [option].
    - The SQLite database is a record of tables, each a list of rows in
      rowid order.  A query without ORDER BY scans its table in that
      order.
    - Every handler opens a session, commits and closes it before it
      returns, so a handler is a function from the database before to
      the database after.  The [except] branches that catch storage
      failures are left out, since the tables here do not fail; the
      ones a hashing error reaches, in [auth.py], are kept.
    - [database.py] creates the engine without enabling SQLite's
      foreign-key enforcement, so a FOREIGN KEY column constrains
      nothing; deletes reach other tables only through the ORM
      relationships that declare [cascade="all, delete-orphan"].
    - [show_snackbar] appends to [page.overlay]; the overlay is part of
      the modelled world, so the notifications a handler shows can be
      read back.  Widget construction and [page.update()] are rendering
      and are left out.
    - The [created_at] and [updated_at] columns are left out: they only
      order the sidebar's list of boards. *)

From stdpp Require Import gmap strings list fin_maps pretty.

Local Open Scope Z_scope.
Local Open Scope string_scope.

(** ** models.py *)

Module User.
Record t := mk
  { id : Z; username : string; email : string; password_hash : string }.
End User.

Module Board.
Record t := mk { id : Z; name : string; user_id : Z }.
End Board.

Module BoardColumn.
Record t := mk
  { id : Z; board_id : Z; name : string; column_type : string;
    position : Z }.
End BoardColumn.

Module Task.
Record t := mk { id : Z; board_id : Z; name : string; position : Z }.
End Task.

Module TaskCell.
Record t := mk { id : Z; task_id : Z; column_id : Z; value : string }.

Definition set_value (c : t) (v : string) : t :=
  mk (id c) (task_id c) (column_id c) v.
End TaskCell.

(** ** database.py: the tables and the session primitives *)

Record DB := mkDB
  { users : list User.t;
    boards : list Board.t;
    board_columns : list BoardColumn.t;
    tasks : list Task.t;
    task_cells : list TaskCell.t }.

Definition init_database : DB := mkDB [] [] [] [] [].

(** An INTEGER PRIMARY KEY left out of an INSERT receives the largest
    rowid in use plus one. *)
Definition next_id (ids : list Z) : Z := 1 + foldr Z.max 0 ids.

(** [query.filter(...).first()]: the first row, in scan order, that
    satisfies the filter. *)
Definition query_first {A} (P : A → Prop) `{∀ x, Decision (P x)}
    (table : list A) : option A :=
  head (filter P table).

(** [query.filter(...).count()]. *)
Definition query_count {A} (P : A → Prop) `{∀ x, Decision (P x)}
    (table : list A) : Z :=
  Z.of_nat (length (filter P table)).

(** [sorted(xs, key=...)] and [ORDER BY]: a stable insertion sort on an
    integer key.  An element is put before the first one whose key is
    not smaller; as [sorted_by] inserts from the right, rows with equal
    keys keep the order they had. *)
Fixpoint insert_by {A} (key : A → Z) (x : A) (l : list A) : list A :=
  match l with
  | [] => [x]
  | y :: l' =>
      if decide (key x ≤ key y)%Z then x :: y :: l'
      else y :: insert_by key x l'
  end.

Definition sorted_by {A} (key : A → Z) (l : list A) : list A :=
  foldr (insert_by key) [] l.

Definition set_users (d : DB) (x : list User.t) : DB :=
  mkDB x (boards d) (board_columns d) (tasks d) (task_cells d).
Definition set_boards (d : DB) (x : list Board.t) : DB :=
  mkDB (users d) x (board_columns d) (tasks d) (task_cells d).
Definition set_board_columns (d : DB) (x : list BoardColumn.t) : DB :=
  mkDB (users d) (boards d) x (tasks d) (task_cells d).
Definition set_tasks (d : DB) (x : list Task.t) : DB :=
  mkDB (users d) (boards d) (board_columns d) x (task_cells d).
Definition set_task_cells (d : DB) (x : list TaskCell.t) : DB :=
  mkDB (users d) (boards d) (board_columns d) (tasks d) x.

(** [session.delete(obj)] followed by [commit], one definition per
    mapped class.  What a delete reaches is what the relationships of
    [models.py] declare:
    - [Task.cells] cascades, so the cells of a deleted task go with it;
    - [Board.columns] and [Board.tasks] cascade, so the columns and the
      tasks of a deleted board go with it, and through [Task.cells] the
      cells of those tasks;
    - [BoardColumn] declares no relationship to [TaskCell], so deleting
      a column deletes that row and nothing else. *)
Definition session_delete_Task (d : DB) (t : Task.t) : DB :=
  mkDB (users d) (boards d) (board_columns d)
    (filter (λ x, Task.id x ≠ Task.id t) (tasks d))
    (filter (λ c, TaskCell.task_id c ≠ Task.id t) (task_cells d)).

Definition session_delete_BoardColumn (d : DB) (c : BoardColumn.t) : DB :=
  set_board_columns d
    (filter (λ x, BoardColumn.id x ≠ BoardColumn.id c) (board_columns d)).

Definition session_delete_Board (d : DB) (b : Board.t) : DB :=
  let board_tasks :=
    filter (λ t, Task.board_id t = Board.id b) (tasks d) in
  let d1 := foldl session_delete_Task d board_tasks in
  mkDB (users d1)
    (filter (λ x, Board.id x ≠ Board.id b) (boards d1))
    (filter (λ c, BoardColumn.board_id c ≠ Board.id b) (board_columns d1))
    (tasks d1) (task_cells d1).

(** ** The page: notifications *)

Record SnackBar := mkSnackBar { message : string; is_error : bool }.

Record World := mkWorld { db : DB; overlay : list SnackBar }.

Definition set_db (w : World) (d : DB) : World := mkWorld d (overlay w).

Definition show_snackbar (w : World) (msg : string) (err : bool) : World :=
  mkWorld (db w) (overlay w ++ [mkSnackBar msg err]).

(** The notifications a handler added to the page. *)
Definition shown (before after : World) : list SnackBar :=
  drop (length (overlay before)) (overlay after).

(** ** ui/tasks.py: the table controller

    A handler takes the view and the world and returns both.  Each
    handler of the source ends with [refresh_table], which reads the
    columns, the tasks and the cells and rebuilds the widgets; it
    changes neither the view's storage nor the database and is not
    repeated in the handlers below.  A handler receives the task or the
    column it acts on as an object and reads its [id] (and, for a
    column, its [name]); here it receives those. *)

(** [STATUS_OPTIONS], a dict from status to colour, in insertion order. *)
Definition STATUS_OPTIONS : list (string * string) :=
  [("Done", "GREEN_600"); ("Working On It", "AMBER_600");
   ("Stuck", "RED_600"); ("", "GREY_400")].

(** The object a view is built for: an ORM [Board] or a [GuestBoard].
    The controller reads its [id] and its [name] only. *)
Module BoardRef.
Record t := mk { id : Z; name : string }.
End BoardRef.

Module GuestColumn.
Record t := mk { id : Z; name : string; column_type : string; position : Z }.
End GuestColumn.

Module GuestTask.
Record t := mk { id : Z; name : string; position : Z; board_id : Z }.
End GuestTask.

Record TaskTableView := mkTaskTableView
  { board : BoardRef.t;
    is_guest : bool;
    guest_columns : list GuestColumn.t;
    guest_tasks : list GuestTask.t;
    guest_cells : gmap Z (gmap Z string);
    guest_column_counter : Z;
    guest_task_counter : Z }.

Definition set_guest_columns (v : TaskTableView) (x : list GuestColumn.t)
    (n : Z) : TaskTableView :=
  mkTaskTableView (board v) (is_guest v) x (guest_tasks v) (guest_cells v)
    n (guest_task_counter v).
Definition set_guest_tasks (v : TaskTableView) (x : list GuestTask.t)
    (n : Z) : TaskTableView :=
  mkTaskTableView (board v) (is_guest v) (guest_columns v) x (guest_cells v)
    (guest_column_counter v) n.
Definition set_guest_cells (v : TaskTableView)
    (x : gmap Z (gmap Z string)) : TaskTableView :=
  mkTaskTableView (board v) (is_guest v) (guest_columns v) (guest_tasks v) x
    (guest_column_counter v) (guest_task_counter v).

(** One append of [_create_default_columns_guest] and of the guest
    branch of [create_column]: bump the counter, append a column with
    the new id. *)
Definition append_guest_column (self : TaskTableView) (name ty : string)
    (pos : Z) : TaskTableView :=
  let n := guest_column_counter self + 1 in
  set_guest_columns self
    (guest_columns self ++ [GuestColumn.mk n name ty pos]) n.

Definition _create_default_columns_guest (self : TaskTableView)
    : TaskTableView :=
  let s1 := append_guest_column self "Status" "status" 0 in
  let s2 := append_guest_column s1 "Notes" "text" 1 in
  append_guest_column s2 "Due Date" "date" 2.

(** [session.add(BoardColumn(...))]: the row takes the next id. *)
Definition add_BoardColumn (d : DB) (board_id : Z) (name ty : string)
    (pos : Z) : DB :=
  set_board_columns d
    (board_columns d ++
       [BoardColumn.mk (next_id (BoardColumn.id <$> board_columns d))
          board_id name ty pos]).

Definition _ensure_default_columns (self : TaskTableView) (w : World)
    : World :=
  let bid := BoardRef.id (board self) in
  let existing_columns :=
    query_count (λ c, BoardColumn.board_id c = bid) (board_columns (db w)) in
  if decide (existing_columns = 0) then
    let d1 := add_BoardColumn (db w) bid "Status" "status" 0 in
    let d2 := add_BoardColumn d1 bid "Notes" "text" 1 in
    set_db w (add_BoardColumn d2 bid "Due Date" "date" 2)
  else w.

(** Lines 44-48 of [__init__]: the seeding step with its guards. *)
Definition seed_default_columns (self : TaskTableView) (w : World)
    : TaskTableView * World :=
  if is_guest self then
    match guest_columns self with
    | [] => (_create_default_columns_guest self, w)
    | _ :: _ => (self, w)
    end
  else (self, _ensure_default_columns self w).

(** [TaskTableView.__init__]: empty guest storage, then the seeding
    step.  The closing [refresh_table] only reads. *)
Definition TaskTableView_init (b : BoardRef.t) (guest : bool) (w : World)
    : TaskTableView * World :=
  seed_default_columns (mkTaskTableView b guest [] [] ∅ 0 0) w.

(** What [refresh_table] reads: the columns in position order, as name,
    type and position, and the tasks in position order, as name and
    position. *)
Definition list_columns (self : TaskTableView) (w : World)
    : list (string * string * Z) :=
  if is_guest self then
    (λ c, (GuestColumn.name c, GuestColumn.column_type c,
           GuestColumn.position c))
      <$> sorted_by GuestColumn.position (guest_columns self)
  else
    (λ c, (BoardColumn.name c, BoardColumn.column_type c,
           BoardColumn.position c))
      <$> sorted_by BoardColumn.position
            (filter (λ c, BoardColumn.board_id c = BoardRef.id (board self))
               (board_columns (db w))).

Definition list_tasks (self : TaskTableView) (w : World)
    : list (string * Z) :=
  if is_guest self then
    (λ t, (GuestTask.name t, GuestTask.position t))
      <$> sorted_by GuestTask.position (guest_tasks self)
  else
    (λ t, (Task.name t, Task.position t))
      <$> sorted_by Task.position
            (filter (λ t, Task.board_id t = BoardRef.id (board self))
               (tasks (db w))).

Definition cell_of (task_id column_id : Z) (c : TaskCell.t) : Prop :=
  TaskCell.task_id c = task_id ∧ TaskCell.column_id c = column_id.

#[global] Instance cell_of_dec t c x : Decision (cell_of t c x).
Proof. unfold cell_of. apply _. Defined.

Definition get_cell_value (self : TaskTableView) (w : World)
    (task_id column_id : Z) : string :=
  if is_guest self then
    default "" (default ∅ (guest_cells self !! task_id) !! column_id)
  else
    match query_first (cell_of task_id column_id) (task_cells (db w)) with
    | Some cell => TaskCell.value cell
    | None => ""
    end.

(** [cell.value = value] on a loaded row, flushed at commit as an
    UPDATE keyed by the row's primary key. *)
Definition update_TaskCell_value (d : DB) (cell : TaskCell.t) (v : string)
    : DB :=
  set_task_cells d
    ((λ r, if decide (TaskCell.id r = TaskCell.id cell)
           then TaskCell.set_value r v else r) <$> task_cells d).

Definition add_TaskCell (d : DB) (task_id column_id : Z) (v : string) : DB :=
  set_task_cells d
    (task_cells d ++
       [TaskCell.mk (next_id (TaskCell.id <$> task_cells d))
          task_id column_id v]).

Definition update_cell (self : TaskTableView) (w : World)
    (task_id column_id : Z) (value : string) : TaskTableView * World :=
  if is_guest self then
    let cells :=
      match guest_cells self !! task_id with
      | Some _ => guest_cells self
      | None => <[task_id := ∅]> (guest_cells self)
      end in
    (set_guest_cells self (alter (insert column_id value) task_id cells), w)
  else
    match query_first (cell_of task_id column_id) (task_cells (db w)) with
    | Some cell => (self, set_db w (update_TaskCell_value (db w) cell value))
    | None => (self, set_db w (add_TaskCell (db w) task_id column_id value))
    end.

(** [list.index]: the position of the first occurrence, [None] for
    [ValueError]. *)
Fixpoint index (x : string) (l : list string) : option nat :=
  match l with
  | [] => None
  | y :: l' => if decide (y = x) then Some O else S <$> index x l'
  end.

Definition cycle_status (self : TaskTableView) (w : World)
    (task_id column_id : Z) : TaskTableView * World :=
  let current_value := get_cell_value self w task_id column_id in
  let status_list := fst <$> STATUS_OPTIONS in
  let next_index :=
    match index current_value status_list with
    | Some current_index => ((current_index + 1) mod length status_list)%nat
    | None => O
    end in
  let new_value := nth next_index status_list "" in
  update_cell self w task_id column_id new_value.

Definition add_Task (d : DB) (board_id : Z) (name : string) (pos : Z) : DB :=
  set_tasks d
    (tasks d ++ [Task.mk (next_id (Task.id <$> tasks d)) board_id name pos]).

Definition add_task (self : TaskTableView) (w : World)
    : TaskTableView * World :=
  if is_guest self then
    let n := guest_task_counter self + 1 in
    let new_task :=
      GuestTask.mk n ("New Task " +:+ pretty n)
        (Z.of_nat (length (guest_tasks self)))
        (BoardRef.id (board self)) in
    (set_guest_tasks self (guest_tasks self ++ [new_task]) n,
     show_snackbar w "Task added! (Guest mode - not saved)" false)
  else
    let bid := BoardRef.id (board self) in
    let task_count :=
      query_count (λ t, Task.board_id t = bid) (tasks (db w)) in
    let d' :=
      add_Task (db w) bid ("New Task " +:+ pretty (task_count + 1))
        task_count in
    (self, show_snackbar (set_db w d') "Task added!" false).

Definition delete_task (self : TaskTableView) (w : World) (task_id : Z)
    : TaskTableView * World :=
  if is_guest self then
    let self1 :=
      set_guest_tasks self
        (filter (λ t, GuestTask.id t ≠ task_id) (guest_tasks self))
        (guest_task_counter self) in
    (set_guest_cells self1 (delete task_id (guest_cells self)),
     show_snackbar w "Task deleted" false)
  else
    match query_first (λ t, Task.id t = task_id) (tasks (db w)) with
    | Some db_task =>
        (self,
         show_snackbar (set_db w (session_delete_Task (db w) db_task))
           "Task deleted" false)
    | None => (self, w)
    end.

(** [create_column], the Add button of the column dialog. *)
Definition create_column (self : TaskTableView) (w : World)
    (name col_type : string) : TaskTableView * World :=
  if decide (name = "") then
    (self, show_snackbar w "Column name is required" true)
  else if is_guest self then
    (append_guest_column self name col_type
       (Z.of_nat (length (guest_columns self))),
     show_snackbar w ("Column '" +:+ name +:+ "' added! (Guest mode)") false)
  else
    let bid := BoardRef.id (board self) in
    let col_count :=
      query_count (λ c, BoardColumn.board_id c = bid)
        (board_columns (db w)) in
    (self,
     show_snackbar
       (set_db w (add_BoardColumn (db w) bid name col_type col_count))
       ("Column '" +:+ name +:+ "' added!") false).

Definition delete_column (self : TaskTableView) (w : World)
    (column_id : Z) (column_name : string) : TaskTableView * World :=
  let deleted := "Column '" +:+ column_name +:+ "' deleted" in
  if is_guest self then
    let self1 :=
      set_guest_columns self
        (filter (λ c, GuestColumn.id c ≠ column_id) (guest_columns self))
        (guest_column_counter self) in
    (set_guest_cells self1 (delete column_id <$> guest_cells self),
     show_snackbar w deleted false)
  else
    match query_first (λ c, BoardColumn.id c = column_id)
            (board_columns (db w)) with
    | Some db_column =>
        (self,
         show_snackbar
           (set_db w (session_delete_BoardColumn (db w) db_column))
           deleted false)
    | None => (self, w)
    end.

(** The cells stored for a (task, column) pair, in either backend. *)
Definition cells_for (self : TaskTableView) (w : World)
    (task_id column_id : Z) : list string :=
  if is_guest self then
    match default ∅ (guest_cells self !! task_id) !! column_id with
    | Some v => [v]
    | None => []
    end
  else
    TaskCell.value <$> filter (cell_of task_id column_id) (task_cells (db w)).

(** The cells stored for a column, in either backend, as (task id,
    value). *)
Definition cells_of_column (self : TaskTableView) (w : World)
    (column_id : Z) : list (Z * string) :=
  if is_guest self then
    omap (λ kv, (λ v, (kv.1, v)) <$> (kv.2 !! column_id))
      (map_to_list (guest_cells self))
  else
    (λ c, (TaskCell.task_id c, TaskCell.value c))
      <$> filter (λ c, TaskCell.column_id c = column_id)
            (task_cells (db w)).

(** ** ui/boards.py and dashboard.py: the sidebar, the board view and the
    dashboard that wires them *)

Module GuestBoard.
Record t := mk { id : Z; name : string }.
End GuestBoard.

Module BoardSidebar.
Record t := mk
  { user_id : option Z;
    is_guest : bool;
    guest_boards : list GuestBoard.t;
    guest_board_counter : Z;
    selected_board_id : option Z }.

Definition set_guest_boards (s : t) (x : list GuestBoard.t) (n : Z) : t :=
  mk (user_id s) (is_guest s) x n (selected_board_id s).
Definition set_selected_board_id (s : t) (x : option Z) : t :=
  mk (user_id s) (is_guest s) (guest_boards s) (guest_board_counter s) x.
End BoardSidebar.

Module BoardView.
Record t := mk
  { board : option BoardRef.t; is_guest : bool;
    table : option TaskTableView }.
End BoardView.

(** [BoardView.__init__]: with a board, a new [TaskTableView] for it;
    without one, the placeholder. *)
Definition BoardView_init (b : option BoardRef.t) (guest : bool) (w : World)
    : BoardView.t * World :=
  match b with
  | Some b0 =>
      let '(tv, w') := TaskTableView_init b0 guest w in
      (BoardView.mk (Some b0) guest (Some tv), w')
  | None => (BoardView.mk None guest None, w)
  end.

Module DashboardView.
Record t := mk
  { is_guest : bool;
    current_board : option BoardRef.t;
    board_view : BoardView.t;
    sidebar : BoardSidebar.t }.

Definition set_current_board (d : t) (b : option BoardRef.t) : t :=
  mk (is_guest d) b (board_view d) (sidebar d).
Definition set_board_view (d : t) (v : BoardView.t) : t :=
  mk (is_guest d) (current_board d) v (sidebar d).
Definition set_sidebar (d : t) (s : BoardSidebar.t) : t :=
  mk (is_guest d) (current_board d) (board_view d) s.
End DashboardView.

(** [DashboardView.__init__]: an empty board view and a sidebar with no
    guest boards. *)
Definition DashboardView_init (user_id : option Z) (guest : bool)
    : DashboardView.t :=
  DashboardView.mk guest None (BoardView.mk None false None)
    (BoardSidebar.mk user_id guest [] 0 None).

Definition refresh_board_view (d : DashboardView.t) (w : World)
    : DashboardView.t * World :=
  let '(bv, w') :=
    BoardView_init (DashboardView.current_board d)
      (DashboardView.is_guest d) w in
  (DashboardView.set_board_view d bv, w').

Definition handle_board_select (d : DashboardView.t) (w : World)
    (b : BoardRef.t) : DashboardView.t * World :=
  refresh_board_view (DashboardView.set_current_board d (Some b)) w.

(** The sidebar's handlers.  The dashboard passes its own
    [handle_board_select] as [on_board_select] and its own
    [refresh_board_view] as [on_refresh], so each handler acts on the
    dashboard that owns the sidebar.  [load_boards] re-renders the list
    and changes nothing. *)
Definition select_board (d : DashboardView.t) (w : World) (b : BoardRef.t)
    : DashboardView.t * World :=
  let s :=
    BoardSidebar.set_selected_board_id (DashboardView.sidebar d)
      (Some (BoardRef.id b)) in
  handle_board_select (DashboardView.set_sidebar d s) w b.

(** The text of the error the commit raises for a NULL in a
    [nullable=False] column. *)
Definition not_null_failed (column : string) : string :=
  "NOT NULL constraint failed: " +:+ column.

Definition add_Board (d : DB) (name : string) (user_id : Z) : DB :=
  set_boards d
    (boards d ++ [Board.mk (next_id (Board.id <$> boards d)) name user_id]).

Definition create_board (d : DashboardView.t) (w : World) (name : string)
    : DashboardView.t * World :=
  let s := DashboardView.sidebar d in
  if decide (name = "") then
    (d, show_snackbar w "Board name is required" true)
  else if BoardSidebar.is_guest s then
    let n := BoardSidebar.guest_board_counter s + 1 in
    let s' :=
      BoardSidebar.set_guest_boards s
        (BoardSidebar.guest_boards s ++ [GuestBoard.mk n name]) n in
    refresh_board_view (DashboardView.set_sidebar d s')
      (show_snackbar w
         ("Board '" +:+ name +:+ "' created! (Guest mode - not saved)") false)
  else
    match BoardSidebar.user_id s with
    | Some uid =>
        refresh_board_view d
          (show_snackbar (set_db w (add_Board (db w) name uid))
             ("Board '" +:+ name +:+ "' created!") false)
    | None =>
        (d, show_snackbar w
              ("Error creating board: " +:+ not_null_failed "boards.user_id")
              true)
    end.

(** [guest_board.name = new_name] on the first guest board with the id. *)
Fixpoint rename_guest_board (l : list GuestBoard.t) (board_id : Z)
    (new_name : string) : list GuestBoard.t :=
  match l with
  | [] => []
  | g :: l' =>
      if decide (GuestBoard.id g = board_id)
      then GuestBoard.mk (GuestBoard.id g) new_name :: l'
      else g :: rename_guest_board l' board_id new_name
  end.

(** [db_board.name = new_name], flushed as an UPDATE keyed by the row's
    primary key. *)
Definition update_Board_name (d : DB) (b : Board.t) (new_name : string)
    : DB :=
  set_boards d
    ((λ r, if decide (Board.id r = Board.id b)
           then Board.mk (Board.id r) new_name (Board.user_id r) else r)
       <$> boards d).

(** A guest board is one object: [create_board] makes it, under an id
    the counter gives once, and the sidebar's list, the closures of its
    items and the dashboard's [current_board] hold that object, not
    copies of it.  So when the rename loop finds a board with the id in
    the list and sets its name, a [current_board] with that id carries
    the new name too.  A board loaded from the database is a separate,
    detached object for each query, and the rename leaves it alone. *)
Definition rename_shared (guest_boards : list GuestBoard.t)
    (current : option BoardRef.t) (board_id : Z) (new_name : string)
    : option BoardRef.t :=
  match current with
  | Some c =>
      if decide (BoardRef.id c = board_id
                 ∧ Exists (λ g, GuestBoard.id g = board_id) guest_boards)
      then Some (BoardRef.mk (BoardRef.id c) new_name)
      else Some c
  | None => None
  end.

Definition rename_board (d : DashboardView.t) (w : World) (b : BoardRef.t)
    (new_name : string) : DashboardView.t * World :=
  let s := DashboardView.sidebar d in
  let renamed := "Board renamed to '" +:+ new_name +:+ "'" in
  if decide (new_name = "") then
    (d, show_snackbar w "Board name is required" true)
  else if BoardSidebar.is_guest s then
    let s' :=
      BoardSidebar.set_guest_boards s
        (rename_guest_board (BoardSidebar.guest_boards s) (BoardRef.id b)
           new_name)
        (BoardSidebar.guest_board_counter s) in
    let current :=
      rename_shared (BoardSidebar.guest_boards s)
        (DashboardView.current_board d) (BoardRef.id b) new_name in
    refresh_board_view
      (DashboardView.set_current_board (DashboardView.set_sidebar d s')
         current)
      (show_snackbar w renamed false)
  else
    match query_first (λ x, Board.id x = BoardRef.id b) (boards (db w)) with
    | Some db_board =>
        refresh_board_view d
          (show_snackbar (set_db w (update_Board_name (db w) db_board new_name))
             renamed false)
    | None => (d, w)
    end.

(** "Clear selection if deleted board was selected". *)
Definition clear_selection (s : BoardSidebar.t) (board_id : Z)
    : BoardSidebar.t :=
  if decide (BoardSidebar.selected_board_id s = Some board_id)
  then BoardSidebar.set_selected_board_id s None else s.

Definition delete_board (d : DashboardView.t) (w : World) (b : BoardRef.t)
    : DashboardView.t * World :=
  let s := DashboardView.sidebar d in
  let deleted := "Board '" +:+ BoardRef.name b +:+ "' deleted" in
  if BoardSidebar.is_guest s then
    let s1 :=
      BoardSidebar.set_guest_boards s
        (filter (λ g, GuestBoard.id g ≠ BoardRef.id b)
           (BoardSidebar.guest_boards s))
        (BoardSidebar.guest_board_counter s) in
    refresh_board_view
      (DashboardView.set_sidebar d (clear_selection s1 (BoardRef.id b)))
      (show_snackbar w deleted false)
  else
    match query_first (λ x, Board.id x = BoardRef.id b) (boards (db w)) with
    | Some db_board =>
        refresh_board_view
          (DashboardView.set_sidebar d (clear_selection s (BoardRef.id b)))
          (show_snackbar (set_db w (session_delete_Board (db w) db_board))
             deleted false)
    | None => (d, w)
    end.

(** ** auth.py: login and signup *)

(** What a call that may raise gives: its value, or the text of the
    exception, [str(ex)]. *)
Inductive Outcome (A : Type) :=
  | Returns (a : A)
  | Raises (ex : string).
Arguments Returns {A} a.
Arguments Raises {A} ex.

(** [passlib.hash.bcrypt], as [models.User] uses it.  The library draws
    the salt; the interface fixes the hash it returns for a password.
    Both calls raise on a password the library refuses (one with a NUL
    byte, one over its size limit). *)
Class Bcrypt := mkBcrypt
  { bcrypt_hash : string → Outcome string;
    bcrypt_verify : string → string → Outcome bool }.

Definition check_password `{Bcrypt} (u : User.t) (password : string)
    : Outcome bool :=
  bcrypt_verify password (User.password_hash u).

Definition login_failed : SnackBar :=
  mkSnackBar "Invalid username or password" true.

(** [handle_login]; the second component is the user handed to
    [on_login_success], if any. *)
Definition handle_login `{Bcrypt} (w : World) (username password : string)
    : World * option User.t :=
  if decide (username = "" ∨ password = "") then
    (show_snackbar w "Please fill in all fields" true, None)
  else
    match query_first (λ u, User.username u = username) (users (db w)) with
    | Some user =>
        match check_password user password with
        | Returns true =>
            (show_snackbar w ("Welcome back, " +:+ username +:+ "!") false,
             Some user)
        | Returns false => (show_snackbar w (message login_failed) true, None)
        | Raises ex => (show_snackbar w ("Login error: " +:+ ex) true, None)
        end
    | None => (show_snackbar w (message login_failed) true, None)
    end.

(** The signup lookup filters on [username == u OR email == e] and takes
    [first()].  Both columns carry a UNIQUE index, so which of two
    matching rows comes first is the query planner's choice; the handler
    is given that choice as [any_row], a function from the matching rows
    to the one returned. *)
Definition lawful_first (any_row : list User.t → option User.t) : Prop :=
  ∀ l, match any_row l with Some x => x ∈ l | None => l = [] end.

Definition collides (username email : string) (u : User.t) : Prop :=
  User.username u = username ∨ User.email u = email.

#[global] Instance collides_dec n e u : Decision (collides n e u).
Proof. unfold collides. apply _. Defined.

(** [session.add(new_user); session.commit()]: the UNIQUE constraints on
    [username] and [email] reject a duplicate with IntegrityError,
    [None] here. *)
Definition add_User (d : DB) (username email hash : string) : option DB :=
  if decide (Exists (collides username email) (users d)) then None
  else
    Some (set_users d
            (users d ++
               [User.mk (next_id (User.id <$> users d)) username email hash])).

Definition username_exists : SnackBar :=
  mkSnackBar "Username already exists" true.
Definition email_exists : SnackBar :=
  mkSnackBar "Email already exists" true.
Definition account_created : SnackBar :=
  mkSnackBar "Account created successfully! Please login." false.

(** [handle_signup]; the second component tells whether
    [on_switch_to_login] was called. *)
Definition handle_signup `{Bcrypt} (any_row : list User.t → option User.t)
    (w : World) (username email password confirm_password : string)
    : World * bool :=
  if decide (username = "" ∨ email = "" ∨ password = ""
             ∨ confirm_password = "") then
    (show_snackbar w "Please fill in all fields" true, false)
  else if decide (password ≠ confirm_password) then
    (show_snackbar w "Passwords do not match" true, false)
  else if decide (String.length password < 6)%nat then
    (show_snackbar w "Password must be at least 6 characters" true, false)
  else
    match any_row (filter (collides username email) (users (db w))) with
    | Some existing_user =>
        if decide (User.username existing_user = username) then
          (show_snackbar w (message username_exists) true, false)
        else (show_snackbar w (message email_exists) true, false)
    | None =>
        match bcrypt_hash password with
        | Returns hash =>
            match add_User (db w) username email hash with
            | Some d' =>
                (show_snackbar (set_db w d') (message account_created) false,
                 true)
            | None =>
                (show_snackbar w "Username or email already exists" true,
                 false)
            end
        | Raises ex => (show_snackbar w ("Signup error: " +:+ ex) true, false)
        end
    end.

(** ** The status cycle as the specification words it

    Done, Working On It, Stuck, empty, and round again; anything else
    goes to Done. *)
Definition next_status (current : string) : string :=
  if decide (current = "Done") then "Working On It"
  else if decide (current = "Working On It") then "Stuck"
  else if decide (current = "Stuck") then ""
  else "Done".

(** [n] clicks on a status cell. *)
Fixpoint cycle_status_n (n : nat) (self : TaskTableView) (w : World)
    (task_id column_id : Z) : TaskTableView * World :=
  match n with
  | O => (self, w)
  | S n' =>
      let '(self', w') := cycle_status_n n' self w task_id column_id in
      cycle_status self' w' task_id column_id
  end.

(** ** Invariants of the stored state *)

(** At most one cell row for each (task, column) pair. *)
Definition cells_unique (d : DB) : Prop :=
  ∀ t c, (length (filter (cell_of t c) (task_cells d)) ≤ 1)%nat.

(** The UNIQUE constraints of the users table. *)
Definition users_unique (d : DB) : Prop :=
  NoDup (User.username <$> users d) ∧ NoDup (User.email <$> users d).

(** Reading a cell in the state a handler returned. *)
Definition read_cell (sw : TaskTableView * World) (task_id column_id : Z)
    : string :=
  get_cell_value sw.1 sw.2 task_id column_id.

Definition stored_cells (sw : TaskTableView * World) (task_id column_id : Z)
    : list string :=
  cells_for sw.1 sw.2 task_id column_id.

(** The tasks of the view's board in storage order, as name and
    position, and their number. *)
Definition board_tasks (sw : TaskTableView * World) : list (string * Z) :=
  if is_guest sw.1 then
    (λ t, (GuestTask.name t, GuestTask.position t)) <$> guest_tasks sw.1
  else
    (λ t, (Task.name t, Task.position t))
      <$> filter (λ t, Task.board_id t = BoardRef.id (board sw.1))
            (tasks (db sw.2)).

Definition task_count (sw : TaskTableView * World) : Z :=
  Z.of_nat (length (board_tasks sw)).

(** [n] clicks on "+ Add Task". *)
Fixpoint add_task_n (n : nat) (sw : TaskTableView * World)
    : TaskTableView * World :=
  match n with
  | O => sw
  | S n' => let sw' := add_task_n n' sw in add_task sw'.1 sw'.2
  end.

(** The three default columns, as [list_columns] shows them. *)
Definition default_columns : list (string * string * Z) :=
  [("Status", "status", 0); ("Notes", "text", 1); ("Due Date", "date", 2)].

(** The primary keys of the child tables are unique. *)
Definition primary_keys (d : DB) : Prop :=
  NoDup (BoardColumn.id <$> board_columns d)
  ∧ NoDup (TaskCell.id <$> task_cells d).

(** A handler reports an error when one of the notifications it shows
    is an error notification. *)
Definition reports_error (before after : World) : Prop :=
  ∃ s, s ∈ shown before after ∧ is_error s = true.

(** The guest table view as its constructor leaves it. *)
Definition fresh_guest_table (b : BoardRef.t) : TaskTableView :=
  mkTaskTableView b true
    [GuestColumn.mk 1 "Status" "status" 0; GuestColumn.mk 2 "Notes" "text" 1;
     GuestColumn.mk 3 "Due Date" "date" 2]
    [] ∅ 3 0.

(** A stand-in for the hashing library, to run the handlers on
    examples.  Like the library it refuses a password with a NUL
    byte. *)
Fixpoint has_nul (s : string) : bool :=
  match s with
  | EmptyString => false
  | String a s' => bool_decide (a = Ascii.zero) || has_nul s'
  end.

Definition null_password : string :=
  "bcrypt does not allow NULL bytes in password".

Definition plain_bcrypt : Bcrypt :=
  mkBcrypt
    (λ p, if has_nul p then Raises null_password
          else Returns ("$2b$" +:+ p))
    (λ p h, if has_nul p then Raises null_password
            else Returns (bool_decide (h = "$2b$" +:+ p))).

(** ** ui/tasks.py: renaming a task

    [str.strip()] removes the leading and trailing characters for which
    [str.isspace] holds.  [py_isspace_code] is that test on a code
    point: tab to carriage return, the separators 28 to 31, the space,
    next line (133), no-break space (160), and the Unicode spaces 5760,
    8192 to 8202, 8232, 8233, 8239, 8287 and 12288.  A [string] here is
    a sequence of characters with one [ascii] each, so it stands for a
    [str] whose code points are below 256; on those the test is
    [py_isspace]. *)
Definition py_isspace_code (n : N) : bool :=
  ((9 <=? n) && (n <=? 13) || (28 <=? n) && (n <=? 32)
   || (n =? 133) || (n =? 160) || (n =? 5760)
   || (8192 <=? n) && (n <=? 8202) || (n =? 8232) || (n =? 8233)
   || (n =? 8239) || (n =? 8287) || (n =? 12288))%N.

Definition py_isspace (a : Ascii.ascii) : bool :=
  py_isspace_code (Ascii.N_of_ascii a).

Fixpoint lstrip (s : string) : string :=
  match s with
  | EmptyString => EmptyString
  | String a s' => if py_isspace a then lstrip s' else s
  end.

Fixpoint rstrip (s : string) : string :=
  match s with
  | EmptyString => EmptyString
  | String a s' =>
      match rstrip s' with
      | EmptyString => if py_isspace a then EmptyString
                       else String a EmptyString
      | r => String a r
      end
  end.

Definition strip (s : string) : string := rstrip (lstrip s).

(** [guest_task.name = new_name] on the first guest task with the id. *)
Fixpoint rename_guest_task (l : list GuestTask.t) (task_id : Z)
    (new_name : string) : list GuestTask.t :=
  match l with
  | [] => []
  | g :: l' =>
      if decide (GuestTask.id g = task_id)
      then GuestTask.mk (GuestTask.id g) new_name (GuestTask.position g)
             (GuestTask.board_id g) :: l'
      else g :: rename_guest_task l' task_id new_name
  end.

(** [db_task.name = new_name], flushed as an UPDATE keyed by the row's
    primary key. *)
Definition update_Task_name (d : DB) (t : Task.t) (new_name : string) : DB :=
  set_tasks d
    ((λ r, if decide (Task.id r = Task.id t)
           then Task.mk (Task.id r) (Task.board_id r) new_name
                  (Task.position r)
           else r) <$> tasks d).

Definition update_task_name (self : TaskTableView) (w : World)
    (task_id : Z) (new_name : string) : TaskTableView * World :=
  if decide (strip new_name = "") then (self, w)
  else if is_guest self then
    (set_guest_tasks self
       (rename_guest_task (guest_tasks self) task_id new_name)
       (guest_task_counter self), w)
  else
    match query_first (λ t, Task.id t = task_id) (tasks (db w)) with
    | Some db_task => (self, set_db w (update_Task_name (db w) db_task new_name))
    | None => (self, w)
    end.

(** ** Sequences of user actions *)

(** What a user can do on a table: the buttons, the fields and the
    status cells of [TaskTableView]. *)
Inductive TableAction :=
  | AddTask
  | DeleteTask (task_id : Z)
  | UpdateTaskName (task_id : Z) (new_name : string)
  | CreateColumn (name col_type : string)
  | DeleteColumn (column_id : Z) (column_name : string)
  | UpdateCell (task_id column_id : Z) (value : string)
  | CycleStatus (task_id column_id : Z).

Definition table_step (sw : TaskTableView * World) (a : TableAction)
    : TaskTableView * World :=
  match a with
  | AddTask => add_task sw.1 sw.2
  | DeleteTask t => delete_task sw.1 sw.2 t
  | UpdateTaskName t n => update_task_name sw.1 sw.2 t n
  | CreateColumn n ty => create_column sw.1 sw.2 n ty
  | DeleteColumn c n => delete_column sw.1 sw.2 c n
  | UpdateCell t c v => update_cell sw.1 sw.2 t c v
  | CycleStatus t c => cycle_status sw.1 sw.2 t c
  end.

Definition table_run (actions : list TableAction)
    (sw : TaskTableView * World) : TaskTableView * World :=
  foldl table_step sw actions.

(** What a user can do on the sidebar. *)
Inductive SidebarAction :=
  | SelectBoard (b : BoardRef.t)
  | CreateBoard (name : string)
  | RenameBoard (b : BoardRef.t) (new_name : string)
  | DeleteBoard (b : BoardRef.t).

Definition sidebar_step (dw : DashboardView.t * World) (a : SidebarAction)
    : DashboardView.t * World :=
  match a with
  | SelectBoard b => select_board dw.1 dw.2 b
  | CreateBoard n => create_board dw.1 dw.2 n
  | RenameBoard b n => rename_board dw.1 dw.2 b n
  | DeleteBoard b => delete_board dw.1 dw.2 b
  end.

Definition sidebar_run (actions : list SidebarAction)
    (dw : DashboardView.t * World) : DashboardView.t * World :=
  foldl sidebar_step dw actions.

(** ** Further invariants *)



(** What the library promises: a password verifies against its own
    hash. *)
Definition bcrypt_correct `{Bcrypt} : Prop :=
  ∀ password hash,
    bcrypt_hash password = Returns hash →
    bcrypt_verify password hash = Returns true.

(** The stored tasks as id, name and position, in storage order: the
    view's own list for a guest, the whole tasks table otherwise. *)
Definition task_rows (sw : TaskTableView * World) : list (Z * string * Z) :=
  if is_guest sw.1 then
    (λ t, (GuestTask.id t, GuestTask.name t, GuestTask.position t))
      <$> guest_tasks sw.1
  else
    (λ t, (Task.id t, Task.name t, Task.position t)) <$> tasks (db sw.2).

(** The columns of the view's board as name, type and position, in
    storage order. *)
Definition column_rows (sw : TaskTableView * World)
    : list (string * string * Z) :=
  if is_guest sw.1 then
    (λ c, (GuestColumn.name c, GuestColumn.column_type c,
           GuestColumn.position c)) <$> guest_columns sw.1
  else
    (λ c, (BoardColumn.name c, BoardColumn.column_type c,
           BoardColumn.position c))
      <$> filter (λ c, BoardColumn.board_id c = BoardRef.id (board sw.1))
            (board_columns (db sw.2)).

(** The ids of the columns of the view's board. *)
Definition column_ids (sw : TaskTableView * World) : list Z :=
  if is_guest sw.1 then GuestColumn.id <$> guest_columns sw.1
  else
    BoardColumn.id
      <$> filter (λ c, BoardColumn.board_id c = BoardRef.id (board sw.1))
            (board_columns (db sw.2)).

(** Every character of the string is whitespace. *)
Fixpoint all_space (s : string) : bool :=
  match s with
  | EmptyString => true
  | String a s' => py_isspace a && all_space s'
  end.

(** * Properties *)

(** ** Queries *)

Section Queries.
Context {A : Type} (P : A → Prop) `{∀ x, Decision (P x)}.

Lemma query_first_None (l : list A) :
  query_first P l = None ↔ filter P l = [].
Proof. unfold query_first. by destruct (filter P l). Qed.

Lemma query_first_None_all (l : list A) :
  (∀ x, x ∈ l → ¬ P x) → query_first P l = None.
Proof.
  intros Hall. apply query_first_None.
  induction l as [|x l IH]; [done|].
  rewrite filter_cons_False by (apply Hall; by left).
  apply IH. intros y Hy. apply Hall. by right.
Qed.

Lemma query_first_app_new (l : list A) (x : A) :
  query_first P l = None → P x → filter P (l ++ [x])%list = [x].
Proof.
  intros Hn Hx. apply query_first_None in Hn.
  rewrite filter_app, Hn. simpl. by rewrite filter_cons_True, filter_nil.
Qed.

Lemma filter_fmap_stable (f : A → A) (l : list A) :
  (∀ x, P (f x) ↔ P x) → filter P (f <$> l) = f <$> filter P l.
Proof.
  intros Hf. induction l as [|x l IH]; [done|].
  rewrite fmap_cons. destruct (decide (P x)) as [Hx|Hx].
  - rewrite (filter_cons_True P x l Hx), filter_cons_True by by apply Hf.
    by rewrite fmap_cons, IH.
  - rewrite (filter_cons_False P x l Hx), filter_cons_False; [done|].
    by rewrite Hf.
Qed.
End Queries.

(** ** Cells: write then read *)

Lemma cell_of_set_value t c r v :
  cell_of t c (TaskCell.set_value r v) ↔ cell_of t c r.
Proof. by destruct r. Qed.

Lemma cell_of_update t c cell v r :
  cell_of t c (if decide (TaskCell.id r = TaskCell.id cell)
               then TaskCell.set_value r v else r) ↔ cell_of t c r.
Proof. case_decide; [apply cell_of_set_value | done]. Qed.

Lemma filter_update_TaskCell_value d cell v t c :
  filter (cell_of t c) (task_cells (update_TaskCell_value d cell v))
  = (λ r, if decide (TaskCell.id r = TaskCell.id cell)
          then TaskCell.set_value r v else r)
      <$> filter (cell_of t c) (task_cells d).
Proof.
  unfold update_TaskCell_value. simpl.
  apply filter_fmap_stable. intros r. apply cell_of_update.
Qed.

Lemma guest_update_lookup (self : TaskTableView) w t c v :
  is_guest self = true →
  default ∅ (guest_cells (update_cell self w t c v).1 !! t) !! c = Some v.
Proof.
  intros Hg. unfold update_cell. rewrite Hg. simpl.
  rewrite lookup_alter_eq.
  destruct (guest_cells self !! t) as [m|] eqn:Hm.
  - rewrite Hm. simpl. apply lookup_insert_eq.
  - rewrite lookup_insert_eq. simpl. apply lookup_insert_eq.
Qed.

Lemma update_cell_is_guest self w t c v :
  is_guest (update_cell self w t c v).1 = is_guest self.
Proof.
  unfold update_cell. destruct (is_guest self) eqn:Hg; [done|].
  by destruct (query_first _ _).
Qed.

(** After a write the first row of the pair holds the written value, and
    the pair has as many rows as before, or one if it had none. *)
Lemma persistent_update_filter (self : TaskTableView) w t c v :
  is_guest self = false →
  ∃ cell rest,
    filter (cell_of t c) (task_cells (db (update_cell self w t c v).2))
    = cell :: rest
    ∧ TaskCell.value cell = v
    ∧ length rest
      = pred (length (filter (cell_of t c) (task_cells (db w)))).
Proof.
  intros Hg. unfold update_cell. rewrite Hg.
  destruct (query_first _ _) as [cell|] eqn:Hq; cbn [fst snd db set_db].
  - rewrite filter_update_TaskCell_value.
    unfold query_first in Hq.
    destruct (filter (cell_of t c) (task_cells (db w))) as [|x rest];
      [done|].
    simpl in Hq. injection Hq as ->. rewrite fmap_cons.
    rewrite decide_True by done.
    eexists _, _. split; [done|]. split; [done|].
    simpl. by rewrite length_fmap.
  - unfold add_TaskCell. cbn [task_cells set_task_cells].
    rewrite (query_first_app_new _ _ _ Hq) by done.
    apply query_first_None in Hq. rewrite Hq.
    by eexists _, _.
Qed.

Lemma update_cell_read self w t c v :
  read_cell (update_cell self w t c v) t c = v.
Proof.
  unfold read_cell, get_cell_value. rewrite update_cell_is_guest.
  destruct (is_guest self) eqn:Hg.
  - by rewrite guest_update_lookup.
  - destruct (persistent_update_filter self w t c v Hg)
      as (cell & rest & Hf & Hv & _).
    unfold query_first. by rewrite Hf.
Qed.

Lemma update_cell_stored self w t c v :
  (is_guest self = false →
   (length (filter (cell_of t c) (task_cells (db w))) ≤ 1)%nat) →
  stored_cells (update_cell self w t c v) t c = [v].
Proof.
  intros Hu. unfold stored_cells, cells_for. rewrite update_cell_is_guest.
  destruct (is_guest self) eqn:Hg.
  - by rewrite guest_update_lookup.
  - destruct (persistent_update_filter self w t c v Hg)
      as (cell & rest & Hf & Hv & Hl).
    rewrite Hf. specialize (Hu eq_refl).
    destruct rest; [by rewrite fmap_cons, Hv | simpl in Hl; lia].
Qed.

Lemma update_cell_cells_unique self w t c v :
  cells_unique (db w) → cells_unique (db (update_cell self w t c v).2).
Proof.
  intros Hu t' c'. unfold update_cell.
  destruct (is_guest self); [apply Hu|].
  destruct (query_first _ _) as [cell|] eqn:Hq; cbn [fst snd db set_db].
  - rewrite filter_update_TaskCell_value, length_fmap. apply Hu.
  - unfold add_TaskCell. cbn [task_cells set_task_cells].
    rewrite filter_app, length_app.
    destruct (decide (cell_of t' c' (TaskCell.mk
      (next_id (TaskCell.id <$> task_cells (db w))) t c v))) as [Hc|Hc].
    + destruct Hc as [<- <-]. simpl in *.
      apply query_first_None in Hq. rewrite Hq.
      rewrite filter_cons_True by done. simpl. lia.
    + rewrite filter_cons_False by done. rewrite filter_nil. simpl.
      specialize (Hu t' c'). lia.
Qed.

Lemma cells_unique_init : cells_unique init_database.
Proof. intros t c. simpl. lia. Qed.

(** C1. [update_cell] followed by [get_cell_value] returns the written
    value, in the guest store and in the database alike; a second write
    to the same pair is read back as the second value; and when the
    pair had at most one row to begin with, it has exactly one
    afterwards, holding the last value written. *)
Theorem update_cell_roundtrip_upsert (self : TaskTableView) (w : World)
    (t c : Z) (v1 v2 : string) :
  let sw1 := update_cell self w t c v1 in
  let sw2 := update_cell sw1.1 sw1.2 t c v2 in
  read_cell sw1 t c = v1
  ∧ read_cell sw2 t c = v2
  ∧ ((is_guest self = false → cells_unique (db w)) →
     stored_cells sw1 t c = [v1] ∧ stored_cells sw2 t c = [v2]).
Proof.
  intros sw1 sw2. split; [apply update_cell_read|].
  split; [apply update_cell_read|].
  intros Hu. split.
  - apply update_cell_stored. intros Hg. apply (Hu Hg).
  - apply update_cell_stored. intros Hg.
    apply update_cell_cells_unique, Hu.
    subst sw1. by rewrite update_cell_is_guest in Hg.
Qed.

Lemma update_cell_roundtrip_upsert_witness :
  let self := mkTaskTableView (BoardRef.mk 1 "Demo") false [] [] ∅ 0 0 in
  let w := mkWorld init_database [] in
  (is_guest self = false → cells_unique (db w))
  ∧ stored_cells
      (update_cell (update_cell self w 1 1 "Done").1
         (update_cell self w 1 1 "Done").2 1 1 "Stuck") 1 1 = ["Stuck"].
Proof.
  intros self w.
  assert (Hu : is_guest self = false → cells_unique (db w))
    by (intros _; apply cells_unique_init).
  split; [exact Hu|].
  exact (proj2 (proj2 (proj2
    (update_cell_roundtrip_upsert self w 1 1 "Done" "Stuck")) Hu)).
Defined.

(** ** The status cycle *)

Lemma cycle_value (current : string) :
  nth (match index current (fst <$> STATUS_OPTIONS) with
       | Some i => ((i + 1) mod length (fst <$> STATUS_OPTIONS))%nat
       | None => O
       end) (fst <$> STATUS_OPTIONS) ""
  = next_status current.
Proof.
  unfold next_status. simpl.
  repeat case_decide; subst; try done; congruence.
Qed.

Lemma cycle_status_writes self w t c :
  cycle_status self w t c
  = update_cell self w t c (next_status (get_cell_value self w t c)).
Proof. unfold cycle_status. by rewrite cycle_value. Qed.

Lemma cycle_status_read self w t c :
  read_cell (cycle_status self w t c) t c
  = next_status (get_cell_value self w t c).
Proof. rewrite cycle_status_writes. apply update_cell_read. Qed.

Lemma cycle_status_n_read n self w t c :
  read_cell (cycle_status_n n self w t c) t c
  = Nat.iter n next_status (get_cell_value self w t c).
Proof.
  induction n as [|n IH]; [done|].
  simpl. destruct (cycle_status_n n self w t c) as [s' w'] eqn:E.
  rewrite cycle_status_read. f_equal. exact IH.
Qed.

Lemma next_status_period (k : nat) :
  Nat.iter (4 * k) next_status "" = "".
Proof.
  induction k as [|k IH]; [done|].
  replace (4 * S k)%nat with (4 + 4 * k)%nat by lia.
  simpl Nat.iter at 1. simpl in IH. simpl. by rewrite IH.
Qed.

Lemma next_status_iter (n : nat) :
  Nat.iter n next_status ""
  = nth ((n + 3) mod 4) (fst <$> STATUS_OPTIONS) "".
Proof.
  replace (Nat.iter n next_status "")
    with (Nat.iter (n mod 4 + 4 * (n / 4)) next_status "")
    by (f_equal; pose proof (Nat.div_mod_eq n 4); lia).
  rewrite Nat.iter_add, next_status_period.
  replace ((n + 3) mod 4)%nat with ((n mod 4 + 3) mod 4)%nat
    by (by rewrite Nat.Div0.add_mod_idemp_l).
  pose proof (Nat.mod_upper_bound n 4 ltac:(lia)) as Hb.
  destruct (n mod 4)%nat as [|[|[|[|r]]]]; try done. lia.
Qed.

(** C2. [cycle_status] is a function of the cell's current value: it
    writes, through [update_cell], the successor of that value in Done,
    Working On It, Stuck, empty, Done, ..., and that successor is what
    is read back; a value outside the cycle is followed by Done; and
    [n] clicks on an empty cell leave the [(n + 3) mod 4]-th entry of
    the cycle. *)
Theorem cycle_status_successor (self : TaskTableView) (w : World)
    (t c : Z) :
  cycle_status self w t c
  = update_cell self w t c (next_status (get_cell_value self w t c))
  ∧ read_cell (cycle_status self w t c) t c
    = next_status (get_cell_value self w t c)
  ∧ (get_cell_value self w t c ∉ fst <$> STATUS_OPTIONS →
     read_cell (cycle_status self w t c) t c = "Done")
  ∧ (get_cell_value self w t c = "" →
     ∀ n : nat,
       read_cell (cycle_status_n n self w t c) t c
       = nth ((n + 3) mod 4) ["Done"; "Working On It"; "Stuck"; ""] "").
Proof.
  split; [apply cycle_status_writes|].
  split; [apply cycle_status_read|]. split.
  - intros Hn. rewrite cycle_status_read. unfold next_status.
    repeat case_decide; try done; exfalso; apply Hn; simpl; set_solver.
  - intros He n. rewrite cycle_status_n_read, He. apply next_status_iter.
Qed.

Lemma cycle_status_successor_witness :
  let self := mkTaskTableView (BoardRef.mk 1 "Demo") true [] [] ∅ 0 0 in
  let w := mkWorld init_database [] in
  get_cell_value self w 1 1 = ""
  ∧ read_cell (cycle_status_n 5 self w 1 1) 1 1 = "Done".
Proof.
  intros self w. split; [reflexivity|].
  exact (proj2 (proj2 (proj2 (cycle_status_successor self w 1 1)))
           eq_refl 5%nat).
Defined.

(** ** Deleting a column *)

(** The guest branch removes the column's entry from every task's
    cells. *)
Lemma delete_column_guest_cells (self : TaskTableView) w cid name :
  is_guest self = true →
  ∀ t, default ∅ (guest_cells (delete_column self w cid name).1 !! t) !! cid
       = None.
Proof.
  intros Hg t. unfold delete_column. rewrite Hg. simpl.
  rewrite lookup_fmap. destruct (guest_cells self !! t); simpl.
  - apply lookup_delete_eq.
  - apply lookup_empty.
Qed.

(** The database branch deletes the column row and leaves the cells
    table as it was. *)
Lemma delete_column_persistent_cells (self : TaskTableView) w cid name :
  is_guest self = false →
  task_cells (db (delete_column self w cid name).2) = task_cells (db w).
Proof.
  intros Hg. unfold delete_column. rewrite Hg.
  by destruct (query_first _ _).
Qed.

(** C3. On a database with one board, its Status column (id 1), one task
    and the cell of that task in that column, [delete_column] removes
    the column row and shows "deleted", and the cell that references
    column 1 is still in the cells table; the guest branch on the same
    content leaves no cell for the column. *)
Theorem delete_column_leaves_cells :
  let d :=
    mkDB [] [Board.mk 1 "Demo" 1] [BoardColumn.mk 1 1 "Status" "status" 0]
      [Task.mk 1 1 "New Task 1" 0] [TaskCell.mk 1 1 1 "Done"] in
  let w := mkWorld d [] in
  let persistent := mkTaskTableView (BoardRef.mk 1 "Demo") false [] [] ∅ 0 0 in
  let guest :=
    mkTaskTableView (BoardRef.mk 1 "Demo") true
      [GuestColumn.mk 1 "Status" "status" 0]
      [GuestTask.mk 1 "New Task 1" 0 1] {[ 1 := {[ 1 := "Done" ]} ]} 1 1 in
  board_columns (db (delete_column persistent w 1 "Status").2) = []
  ∧ shown w (delete_column persistent w 1 "Status").2
    = [mkSnackBar "Column 'Status' deleted" false]
  ∧ cells_of_column persistent (delete_column persistent w 1 "Status").2 1
    = [(1, "Done")]
  ∧ cells_of_column (delete_column guest w 1 "Status").1 w 1 = [].
Proof. cbv zeta. repeat split; vm_compute; reflexivity. Qed.

(** ** Adding a task *)

Lemma add_task_is_guest self w : is_guest (add_task self w).1 = is_guest self.
Proof. unfold add_task. by destruct (is_guest self) eqn:Hg. Qed.

Lemma add_task_board self w : board (add_task self w).1 = board self.
Proof. unfold add_task. by destruct (is_guest self). Qed.

Lemma add_task_board_tasks (self : TaskTableView) (w : World) :
  board_tasks (add_task self w)
  = (board_tasks (self, w) ++
       [("New Task " +:+
           pretty (if is_guest self then guest_task_counter self + 1
                   else task_count (self, w) + 1),
         task_count (self, w))])%list.
Proof.
  unfold task_count, board_tasks.
  rewrite add_task_is_guest, add_task_board. cbn [fst snd].
  unfold add_task. destruct (is_guest self) eqn:Hg; cbn [fst snd].
  - simpl. by rewrite fmap_app, length_fmap.
  - unfold add_Task, query_count. simpl.
    rewrite filter_app, filter_cons_True, filter_nil by done.
    by rewrite fmap_app, length_fmap.
Qed.

(** While tasks are only added, the guest counter is the number of
    tasks. *)
Lemma add_task_n_guest_counter (b : BoardRef.t) (w0 : World) (k : nat) :
  let sw := add_task_n k (TaskTableView_init b true w0) in
  is_guest sw.1 = true
  ∧ guest_task_counter sw.1 = Z.of_nat k
  ∧ task_count sw = Z.of_nat k.
Proof.
  induction k as [|k IH]; [done|].
  simpl in *. destruct IH as (Hg & Hc & Hn).
  set (sw := add_task_n k (TaskTableView_init b true w0)) in *.
  split; [by rewrite add_task_is_guest|].
  unfold task_count in *. rewrite add_task_board_tasks.
  rewrite length_app. simpl length.
  split; [|unfold task_count; destruct sw; simpl in *; lia].
  unfold add_task. rewrite Hg. simpl. lia.
Qed.

(** What [add_task] appends.  The position is the number of tasks the
    board holds.  In the database branch the name is "New Task "
    followed by that number plus one; in the guest branch it is
    "New Task " followed by the view's task counter plus one.  On a new
    guest view to which tasks are only added, one after the other, the
    two numbers agree. *)
Lemma add_task_name_position (self : TaskTableView) (w : World) :
  board_tasks (add_task self w)
  = (board_tasks (self, w) ++
       [("New Task " +:+
           pretty (if is_guest self then guest_task_counter self + 1
                   else task_count (self, w) + 1),
         task_count (self, w))])%list
  ∧ (∀ (b : BoardRef.t) (k : nat),
       let sw := add_task_n k (TaskTableView_init b true w) in
       task_count sw = Z.of_nat k
       ∧ board_tasks (add_task sw.1 sw.2)
         = (board_tasks sw ++
              [("New Task " +:+ pretty (Z.of_nat k + 1), Z.of_nat k)])%list).
Proof.
  split; [apply add_task_board_tasks|].
  intros b k sw.
  destruct (add_task_n_guest_counter b w k) as (Hg & Hc & Hn).
  fold sw in Hg, Hc, Hn. split; [done|].
  rewrite add_task_board_tasks, Hg, Hc.
  by destruct sw; simpl in *; rewrite Hn.
Qed.

(** C4.  Two tasks are added to a new board and the first is deleted,
    so the board holds one task; then a task is added.  In the database
    branch the new task is "New Task 2" at position 1, the number of
    tasks plus one as the specification says.  In the guest branch it is
    "New Task 3" at position 1: the name is numbered by
    [guest_task_counter], which counts the tasks ever added. *)
Theorem add_task_guest_name_after_delete :
  let demo := BoardRef.mk 1 "Demo" in
  let sw0 := TaskTableView_init demo true (mkWorld init_database []) in
  let sw2 := add_task_n 2 sw0 in
  let sw3 := delete_task sw2.1 sw2.2 1 in
  let pw0 :=
    TaskTableView_init demo false
      (mkWorld (mkDB [] [Board.mk 1 "Demo" 1] [] [] []) []) in
  let pw2 := add_task_n 2 pw0 in
  let pw3 := delete_task pw2.1 pw2.2 1 in
  (task_count pw3 = 1
   ∧ last (board_tasks (add_task pw3.1 pw3.2)) = Some ("New Task 2", 1))
  ∧ task_count sw3 = 1
  ∧ last (board_tasks (add_task sw3.1 sw3.2)) = Some ("New Task 3", 1)
  ∧ last (board_tasks (add_task sw3.1 sw3.2))
    ≠ Some ("New Task " +:+ pretty (task_count sw3 + 1), task_count sw3).
Proof. cbv zeta. repeat split; vm_compute; congruence. Qed.

(** ** Seeding the default columns *)

Lemma ensure_default_columns_seeds (self : TaskTableView) (w : World) :
  is_guest self = false →
  filter (λ c, BoardColumn.board_id c = BoardRef.id (board self))
    (board_columns (db w)) = [] →
  list_columns self (_ensure_default_columns self w) = default_columns.
Proof.
  intros Hg He. unfold list_columns, _ensure_default_columns, query_count.
  rewrite Hg, He. simpl length. rewrite decide_True by done.
  unfold add_BoardColumn. cbn [db set_db board_columns set_board_columns].
  rewrite !filter_app, He.
  by rewrite !filter_cons_True, !filter_nil by done.
Qed.

Lemma ensure_default_columns_noop (self : TaskTableView) (w : World) :
  filter (λ c, BoardColumn.board_id c = BoardRef.id (board self))
    (board_columns (db w)) ≠ [] →
  _ensure_default_columns self w = w.
Proof.
  intros Hne. unfold _ensure_default_columns, query_count.
  destruct (filter _ _); [done|]. by rewrite decide_False.
Qed.

(** A table view built as a guest, or for a board id that no column row
    carries, shows exactly Status (status, 0), Notes (text, 1) and Due
    Date (date, 2), in that order; and the seeding step of the
    constructor changes nothing on a view that already shows a
    column. *)
Lemma default_columns_seeded_once :
  (∀ (b : BoardRef.t) (guest : bool) (w : World),
     (guest = false →
      query_count (λ c, BoardColumn.board_id c = BoardRef.id b)
        (board_columns (db w)) = 0) →
     let sw := TaskTableView_init b guest w in
     list_columns sw.1 sw.2 = default_columns)
  ∧ (∀ (self : TaskTableView) (w : World),
       list_columns self w ≠ [] → seed_default_columns self w = (self, w)).
Proof.
  split.
  - intros b [] w Hc sw; [done|].
    subst sw. unfold TaskTableView_init, seed_default_columns. simpl.
    apply ensure_default_columns_seeds; [done|]. simpl.
    specialize (Hc eq_refl). unfold query_count in Hc.
    destruct (filter _ _); [done | simpl in Hc; lia].
  - intros self w Hne. unfold seed_default_columns, list_columns in *.
    destruct (is_guest self).
    + destruct (guest_columns self); [done|done].
    + f_equal. apply ensure_default_columns_noop.
      intros He. by rewrite He in Hne.
Qed.

Lemma default_columns_seeded_once_witness :
  let b := BoardRef.mk 1 "Demo" in
  let w := mkWorld (mkDB [] [Board.mk 1 "Demo" 1] [] [] []) [] in
  let sw := TaskTableView_init b false w in
  query_count (λ c, BoardColumn.board_id c = BoardRef.id b)
    (board_columns (db w)) = 0
  ∧ list_columns sw.1 sw.2 = default_columns
  ∧ list_columns sw.1 sw.2 ≠ []
  ∧ seed_default_columns sw.1 sw.2 = sw.
Proof.
  intros b w sw. split; [reflexivity|].
  assert (Hl : list_columns sw.1 sw.2 = default_columns)
    by exact (proj1 default_columns_seeded_once b false w (λ _, eq_refl)).
  assert (Hne : list_columns sw.1 sw.2 ≠ [])
    by (rewrite Hl; discriminate).
  split; [exact Hl|]. split; [exact Hne|].
  exact (proj2 default_columns_seeded_once sw.1 sw.2 Hne).
Defined.

(** ** Deleting a board *)

Lemma NoDup_fmap_eq {A B} (f : A → B) (l : list A) x y :
  NoDup (f <$> l) → x ∈ l → y ∈ l → f x = f y → x = y.
Proof.
  induction l as [|a l IH]; intros Hnd Hx Hy Hf; [by apply elem_of_nil in Hx|].
  rewrite fmap_cons in Hnd. apply NoDup_cons in Hnd as [Hna Hnd].
  apply elem_of_cons in Hx as [->|Hx]; apply elem_of_cons in Hy as [->|Hy].
  - done.
  - exfalso. apply Hna. rewrite Hf. by apply list_elem_of_fmap_2.
  - exfalso. apply Hna. rewrite <- Hf. by apply list_elem_of_fmap_2.
  - by apply IH.
Qed.

Lemma foldl_delete_Task_parents (ts : list Task.t) (d : DB) :
  boards (foldl session_delete_Task d ts) = boards d
  ∧ board_columns (foldl session_delete_Task d ts) = board_columns d
  ∧ users (foldl session_delete_Task d ts) = users d.
Proof.
  revert d. induction ts as [|t ts IH]; intros d; [done|].
  simpl. destruct (IH (session_delete_Task d t)) as (-> & -> & ->). done.
Qed.

Lemma foldl_delete_Task_tasks (ts : list Task.t) (d : DB) (x : Task.t) :
  x ∈ tasks (foldl session_delete_Task d ts) ↔
  x ∈ tasks d ∧ ∀ t, t ∈ ts → Task.id x ≠ Task.id t.
Proof.
  revert d. induction ts as [|t ts IH]; intros d; simpl.
  - split; [intros Hx; split; [done|] | by intros [? _]].
    intros t Ht. by apply elem_of_nil in Ht.
  - rewrite IH. simpl. rewrite list_elem_of_filter. split.
    + intros [[Hne Hx] Hall]. split; [done|].
      intros t' [->|Ht']%elem_of_cons; [done | by apply Hall].
    + intros [Hx Hall]. split; [split; [|done]|].
      * apply Hall. by left.
      * intros t' Ht'. apply Hall. by right.
Qed.

Lemma foldl_delete_Task_cells (ts : list Task.t) (d : DB) (c : TaskCell.t) :
  c ∈ task_cells (foldl session_delete_Task d ts) ↔
  c ∈ task_cells d ∧ ∀ t, t ∈ ts → TaskCell.task_id c ≠ Task.id t.
Proof.
  revert d. induction ts as [|t ts IH]; intros d; simpl.
  - split; [intros Hx; split; [done|] | by intros [? _]].
    intros t Ht. by apply elem_of_nil in Ht.
  - rewrite IH. simpl. rewrite list_elem_of_filter. split.
    + intros [[Hne Hx] Hall]. split; [done|].
      intros t' [->|Ht']%elem_of_cons; [done | by apply Hall].
    + intros [Hx Hall]. split; [split; [|done]|].
      * apply Hall. by left.
      * intros t' Ht'. apply Hall. by right.
Qed.

(** The cascade itself is complete: in the database the delete commits,
    no column or task of the board, no cell of such a task, and no row
    of the board is found by its id. *)
Lemma session_delete_Board_no_orphans (d : DB) (b : Board.t) :
  primary_keys d →
  let d' := session_delete_Board d b in
  (∀ c, c ∈ board_columns d → BoardColumn.board_id c = Board.id b →
        query_first (λ x, BoardColumn.id x = BoardColumn.id c)
          (board_columns d') = None)
  ∧ (∀ t, t ∈ tasks d → Task.board_id t = Board.id b →
          query_first (λ x, Task.id x = Task.id t) (tasks d') = None)
  ∧ (∀ t c, t ∈ tasks d → Task.board_id t = Board.id b →
            c ∈ task_cells d → TaskCell.task_id c = Task.id t →
            query_first (λ x, TaskCell.id x = TaskCell.id c) (task_cells d')
            = None)
  ∧ query_first (λ x, Board.id x = Board.id b) (boards d') = None.
Proof.
  intros [Hcols Hcells] d'. subst d'. unfold session_delete_Board.
  cbn [boards board_columns tasks task_cells].
  set (ts := filter (λ t, Task.board_id t = Board.id b) (tasks d)).
  destruct (foldl_delete_Task_parents ts d) as (Hb & Hc & _).
  rewrite Hb, Hc. repeat split.
  - intros c Hin Hbid. apply query_first_None_all.
    intros x [Hxb Hx]%list_elem_of_filter Hid.
    apply Hxb. by rewrite (NoDup_fmap_eq _ _ x c Hcols Hx Hin Hid).
  - intros t Hin Hbid. apply query_first_None_all.
    intros x [_ Hall]%foldl_delete_Task_tasks Hid.
    apply (Hall t); [|done]. by apply list_elem_of_filter.
  - intros t c Ht Hbid Hin Htid.
    apply query_first_None_all.
    intros x [Hx Hall]%foldl_delete_Task_cells Hid.
    apply (Hall t); [by apply list_elem_of_filter|].
    by rewrite (NoDup_fmap_eq _ _ x c Hcells Hx Hin Hid).
  - apply query_first_None_all.
    by intros x [Hne _]%list_elem_of_filter.
Qed.

(** When the dashboard shows no board, the database after the handler
    is the one the cascade commits. *)
Lemma delete_board_commits_cascade d w (b : BoardRef.t) (db_board : Board.t) :
  BoardSidebar.is_guest (DashboardView.sidebar d) = false →
  DashboardView.current_board d = None →
  query_first (λ x, Board.id x = BoardRef.id b) (boards (db w))
  = Some db_board →
  db (delete_board d w b).2 = session_delete_Board (db w) db_board.
Proof.
  intros Hg Hc Hq. unfold delete_board. rewrite Hg, Hq.
  unfold refresh_board_view. simpl. by rewrite Hc.
Qed.

(** C6. A user with one board, Demo, selects it, adds a task and sets
    its Status cell, then deletes the board.  The cascade removes the
    board, its task and the cell.  The handler then calls [on_refresh];
    the dashboard still holds the deleted board as [current_board], so
    it builds a table view for it, and [_ensure_default_columns], which
    finds no column for board 1, seeds three again.  The database ends
    with no board and three columns of board 1, and the ids of the
    board's former columns are found. *)
Theorem delete_board_selected_reseeds :
  let demo := BoardRef.mk 1 "Demo" in
  let w0 := mkWorld (mkDB [User.mk 1 "alice" "a@x.com" "hash"] [] [] [] []) [] in
  let s1 := create_board (DashboardView_init (Some 1) false) w0 "Demo" in
  let s2 := select_board s1.1 s1.2 demo in
  let table := mkTaskTableView demo false [] [] ∅ 0 0 in
  let s3 := add_task table s2.2 in
  let s4 := update_cell s3.1 s3.2 1 1 "Done" in
  let s5 := delete_board s2.1 s4.2 demo in
  BoardView.table (DashboardView.board_view s2.1) = Some table
  ∧ BoardColumn.id <$> board_columns (db s4.2) = [1; 2; 3]
  ∧ BoardColumn.board_id <$> board_columns (db s4.2) = [1; 1; 1]
  ∧ Task.id <$> tasks (db s4.2) = [1]
  ∧ task_cells (db s4.2) = [TaskCell.mk 1 1 1 "Done"]
  ∧ boards (db s5.2) = []
  ∧ tasks (db s5.2) = []
  ∧ task_cells (db s5.2) = []
  ∧ DashboardView.current_board s5.1 = Some demo
  ∧ board_columns (db s5.2)
    = [BoardColumn.mk 1 1 "Status" "status" 0;
       BoardColumn.mk 2 1 "Notes" "text" 1;
       BoardColumn.mk 3 1 "Due Date" "date" 2]
  ∧ query_first (λ x, BoardColumn.id x = 1) (board_columns (db s5.2))
    = Some (BoardColumn.mk 1 1 "Status" "status" 0).
Proof. cbv zeta. repeat split; vm_compute; reflexivity. Qed.

(** C5.  The board of a first table view can have columns already.  A
    user creates the board Demo, selects it and deletes it: as above,
    the refresh seeds three columns for the deleted board 1 and leaves
    its table on display.  On that table the user deletes the column
    Due Date and adds a column Owner.  Then the user creates the board
    Next, which receives the id 1 again, and selects it.  This is the
    first table view built for Next; [_ensure_default_columns] counts
    three columns for board 1 and seeds nothing, and the view shows
    Status, Notes and Owner. *)
Theorem first_view_of_reused_board_id :
  let demo := BoardRef.mk 1 "Demo" in
  let next := BoardRef.mk 1 "Next" in
  let w0 := mkWorld (mkDB [User.mk 1 "alice" "a@x.com" "hash"] [] [] [] []) [] in
  let s1 := create_board (DashboardView_init (Some 1) false) w0 "Demo" in
  let s2 := select_board s1.1 s1.2 demo in
  let s3 := delete_board s2.1 s2.2 demo in
  let table := mkTaskTableView demo false [] [] ∅ 0 0 in
  let s4 := delete_column table s3.2 3 "Due Date" in
  let s5 := create_column s4.1 s4.2 "Owner" "text" in
  let s6 := create_board s3.1 s5.2 "Next" in
  let s7 := select_board s6.1 s6.2 next in
  BoardView.table (DashboardView.board_view s3.1) = Some table
  ∧ boards (db s3.2) = []
  ∧ boards (db s6.2) = [Board.mk 1 "Next" 1]
  ∧ query_count (λ c, BoardColumn.board_id c = 1) (board_columns (db s6.2))
    = 3
  ∧ BoardView.table (DashboardView.board_view s7.1)
    = Some (mkTaskTableView next false [] [] ∅ 0 0)
  ∧ list_columns (mkTaskTableView next false [] [] ∅ 0 0) s7.2
    = [("Status", "status", 0); ("Notes", "text", 1); ("Owner", "text", 2)]
  ∧ list_columns (mkTaskTableView next false [] [] ∅ 0 0) s7.2
    ≠ default_columns.
Proof. cbv zeta. repeat split; vm_compute; congruence. Qed.

(** ** Renaming or deleting a board that does not exist *)

Lemma shown_snackbar w msg err :
  shown w (show_snackbar w msg err) = [mkSnackBar msg err].
Proof.
  unfold shown, show_snackbar. simpl.
  by rewrite drop_app_length.
Qed.


Lemma refresh_board_view_guest d w :
  DashboardView.is_guest d = true →
  refresh_board_view d w
  = (DashboardView.set_board_view d
       (BoardView.mk (DashboardView.current_board d) true
          (fresh_guest_table <$> DashboardView.current_board d)), w).
Proof.
  intros Hg. unfold refresh_board_view, BoardView_init. rewrite Hg.
  by destruct (DashboardView.current_board d).
Qed.

Lemma rename_guest_board_missing l bid new_name :
  (∀ g, g ∈ l → GuestBoard.id g ≠ bid) →
  rename_guest_board l bid new_name = l.
Proof.
  induction l as [|g l IH]; intros Hall; [done|].
  simpl. rewrite decide_False by (apply Hall; by left).
  f_equal. apply IH. intros g' Hg'. apply Hall. by right.
Qed.

Lemma filter_missing {A} (P : A → Prop) `{∀ x, Decision (P x)} (l : list A) :
  (∀ x, x ∈ l → P x) → filter P l = l.
Proof.
  induction l as [|x l IH]; intros Hall; [done|].
  rewrite filter_cons_True by (apply Hall; by left).
  f_equal. apply IH. intros y Hy. apply Hall. by right.
Qed.

(** C7, as the code has it, in the database branch.  When no board has
    the given id, [delete_board] and, with a non-empty new name,
    [rename_board] return without any notification and leave the
    dashboard and the world as they were; with an empty new name
    [rename_board] shows "Board name is required" and stores nothing.
    No error is reported for the missing board. *)
Theorem rename_delete_missing_board (d : DashboardView.t) (w : World)
    (b : BoardRef.t) (new_name : string) :
  BoardSidebar.is_guest (DashboardView.sidebar d) = false →
  query_first (λ x, Board.id x = BoardRef.id b) (boards (db w)) = None →
  delete_board d w b = (d, w)
  ∧ (new_name ≠ "" → rename_board d w b new_name = (d, w))
  ∧ (new_name = "" →
     rename_board d w b new_name
     = (d, show_snackbar w "Board name is required" true))
  ∧ ¬ reports_error w (delete_board d w b).2
  ∧ (new_name ≠ "" → ¬ reports_error w (rename_board d w b new_name).2).
Proof.
  intros Hg Hq.
  assert (Hd : delete_board d w b = (d, w))
    by (unfold delete_board; by rewrite Hg, Hq).
  assert (Hr : new_name ≠ "" → rename_board d w b new_name = (d, w))
    by (intros Hn; unfold rename_board;
        by rewrite decide_False, Hg, Hq by done).
  assert (Hquiet : ¬ reports_error w w).
  { intros (x & Hx & _). unfold shown in Hx. rewrite drop_all in Hx.
    by apply elem_of_nil in Hx. }
  split; [done|]. split; [done|]. split.
  - intros ->. unfold rename_board. by rewrite decide_True.
  - rewrite Hd. split; [done|]. intros Hn. by rewrite (Hr Hn).
Qed.

Lemma rename_delete_missing_board_witness :
  let d := DashboardView_init (Some 1) false in
  let w := mkWorld (mkDB [User.mk 1 "alice" "a@x.com" "hash"] [] [] [] []) [] in
  let b := BoardRef.mk 7 "Old" in
  "New" ≠ ""
  ∧ BoardSidebar.is_guest (DashboardView.sidebar d) = false
  ∧ query_first (λ x, Board.id x = BoardRef.id b) (boards (db w)) = None
  ∧ delete_board d w b = (d, w)
  ∧ rename_board d w b "New" = (d, w).
Proof.
  intros d w b.
  assert (Hn : "New" ≠ "") by discriminate.
  split; [exact Hn|]. split; [reflexivity|]. split; [reflexivity|].
  pose proof (rename_delete_missing_board d w b "New" eq_refl eq_refl)
    as (Hd & Hr & _).
  split; [exact Hd | exact (Hr Hn)].
Defined.

(** C7, as stated, fails: on a database without boards neither
    [rename_board] nor [delete_board] reports an error for board 7. *)
Lemma missing_board_reports_no_error :
  let d := DashboardView_init (Some 1) false in
  let w := mkWorld (mkDB [User.mk 1 "alice" "a@x.com" "hash"] [] [] [] []) [] in
  let b := BoardRef.mk 7 "Old" in
  query_first (λ x, Board.id x = BoardRef.id b) (boards (db w)) = None
  ∧ ¬ reports_error w (rename_board d w b "New").2
  ∧ ¬ reports_error w (delete_board d w b).2.
Proof.
  cbv zeta. split; [reflexivity|].
  split; intros (s & Hs & _); vm_compute in Hs; by apply elem_of_nil in Hs.
Qed.

(** The guest branches have no such guard.  On a guest dashboard that
    shows board 1 with one task, renaming or deleting a board 7 that
    does not exist shows the success notification and calls
    [on_refresh], which replaces the table on display by a new one: the
    list of boards is as before, the task is gone. *)
Lemma missing_guest_board_reports_success :
  let demo := BoardRef.mk 1 "Demo" in
  let w0 := mkWorld init_database [] in
  let s1 := create_board (DashboardView_init None true) w0 "Demo" in
  let s2 := select_board s1.1 s1.2 demo in
  let s3 := add_task (fresh_guest_table demo) s2.2 in
  let d :=
    DashboardView.set_board_view s2.1
      (BoardView.mk (Some demo) true (Some s3.1)) in
  let missing := BoardRef.mk 7 "Old" in
  let r := rename_board d s3.2 missing "New" in
  let r' := delete_board d s3.2 missing in
  guest_tasks s3.1 = [GuestTask.mk 1 "New Task 1" 0 1]
  ∧ shown s3.2 r.2 = [mkSnackBar "Board renamed to 'New'" false]
  ∧ shown s3.2 r'.2 = [mkSnackBar "Board 'Old' deleted" false]
  ∧ BoardSidebar.guest_boards (DashboardView.sidebar r.1)
    = [GuestBoard.mk 1 "Demo"]
  ∧ BoardSidebar.guest_boards (DashboardView.sidebar r'.1)
    = [GuestBoard.mk 1 "Demo"]
  ∧ BoardView.table (DashboardView.board_view r.1)
    = Some (fresh_guest_table demo)
  ∧ BoardView.table (DashboardView.board_view r'.1)
    = Some (fresh_guest_table demo).
Proof. cbv zeta. repeat split; vm_compute; reflexivity. Qed.

(** ** Guest tables are rebuilt *)

Lemma fresh_guest_table_empty (b : BoardRef.t) (w : World) :
  list_columns (fresh_guest_table b) w = default_columns
  ∧ list_tasks (fresh_guest_table b) w = []
  ∧ guest_cells (fresh_guest_table b) = ∅
  ∧ ∀ t c, get_cell_value (fresh_guest_table b) w t c = "".
Proof. by repeat split. Qed.

(** C10. In guest mode the columns, tasks and cells are fields of the
    table view, and the dashboard builds a new table view whenever a
    board is selected and whenever the sidebar asks for a refresh (after
    creating, renaming or deleting a board).  Whatever the previous view
    held, the new one has the three default columns, no task and no
    cell value.  It is built for the board on display; when that board
    is the one just renamed, for the board under its new name. *)
Theorem guest_table_rebuilt (d : DashboardView.t) (w : World)
    (b : BoardRef.t) :
  DashboardView.is_guest d = true →
  BoardSidebar.is_guest (DashboardView.sidebar d) = true →
  let table_after (r : DashboardView.t * World) :=
    BoardView.table (DashboardView.board_view r.1) in
  (∀ b0 w0,
     list_columns (fresh_guest_table b0) w0 = default_columns
     ∧ list_tasks (fresh_guest_table b0) w0 = []
     ∧ guest_cells (fresh_guest_table b0) = ∅
     ∧ ∀ t c, get_cell_value (fresh_guest_table b0) w0 t c = "")
  ∧ table_after (select_board d w b) = Some (fresh_guest_table b)
  ∧ table_after (handle_board_select d w b) = Some (fresh_guest_table b)
  ∧ (DashboardView.current_board d = Some b →
     table_after (refresh_board_view d w) = Some (fresh_guest_table b)
     ∧ (∀ name, name ≠ "" →
          table_after (create_board d w name) = Some (fresh_guest_table b))
     ∧ (∀ b' name, name ≠ "" →
          table_after (rename_board d w b' name)
          = fresh_guest_table
              <$> rename_shared
                    (BoardSidebar.guest_boards (DashboardView.sidebar d))
                    (Some b) (BoardRef.id b') name)
     ∧ (∀ b', table_after (delete_board d w b')
              = Some (fresh_guest_table b))).
Proof.
  intros Hg Hs table_after. subst table_after. cbn beta.
  split; [apply fresh_guest_table_empty|].
  unfold select_board, handle_board_select.
  rewrite !refresh_board_view_guest by done. cbn [fst snd].
  split; [done|]. split; [done|].
  intros Hc. repeat split.
  - by rewrite Hc.
  - intros name Hn. unfold create_board.
    rewrite decide_False, Hs by done.
    rewrite refresh_board_view_guest by done. simpl. by rewrite Hc.
  - intros b' name Hn. unfold rename_board.
    rewrite decide_False, Hs by done.
    rewrite refresh_board_view_guest by done. simpl. by rewrite Hc.
  - intros b'. unfold delete_board. rewrite Hs.
    rewrite refresh_board_view_guest by done. simpl. by rewrite Hc.
Qed.

Lemma guest_table_rebuilt_witness :
  let demo := BoardRef.mk 1 "Demo" in
  let w0 := mkWorld init_database [] in
  let s1 := create_board (DashboardView_init None true) w0 "Demo" in
  let s2 := select_board s1.1 s1.2 demo in
  let s3 := add_task (fresh_guest_table demo) s2.2 in
  let s4 := update_cell s3.1 s3.2 1 1 "Done" in
  let d :=
    DashboardView.set_board_view s2.1
      (BoardView.mk (Some demo) true (Some s4.1)) in
  (DashboardView.is_guest d = true
   ∧ BoardSidebar.is_guest (DashboardView.sidebar d) = true
   ∧ DashboardView.current_board d = Some demo)
  ∧ (list_tasks s4.1 s4.2 = [("New Task 1", 0)]
     ∧ get_cell_value s4.1 s4.2 1 1 = "Done")
  ∧ BoardView.table
      (DashboardView.board_view (select_board d s4.2 demo).1)
    = Some (fresh_guest_table demo)
  ∧ BoardView.table
      (DashboardView.board_view (refresh_board_view d s4.2).1)
    = Some (fresh_guest_table demo)
  ∧ BoardView.table
      (DashboardView.board_view (rename_board d s4.2 demo "Work").1)
    = Some (fresh_guest_table (BoardRef.mk 1 "Work")).
Proof.
  intros demo w0 s1 s2 s3 s4 d.
  split; [by repeat split|]. split; [by split|].
  pose proof (guest_table_rebuilt d s4.2 demo eq_refl eq_refl) as Hr.
  cbv zeta in Hr. split; [|split].
  - exact (proj1 (proj2 Hr)).
  - exact (proj1 (proj2 (proj2 (proj2 Hr)) eq_refl)).
  - assert (Hn : "Work" ≠ "") by discriminate.
    exact (eq_trans
             (proj1 (proj2 (proj2 (proj2 (proj2 (proj2 Hr)) eq_refl)))
                demo "Work" Hn)
             eq_refl).
Defined.

(** ** Login *)

(** When the hash check returns, the two failures look the same: for a
    non-empty username and password, [handle_login] shows the single
    notification "Invalid username or password" and hands no user on,
    whether no row has the username or the row's hash does not
    verify. *)
Lemma handle_login_same_failure `{Bcrypt} (w1 w2 : World)
    (username password : string) (user : User.t) :
  username ≠ "" → password ≠ "" →
  query_first (λ u, User.username u = username) (users (db w1)) = None →
  query_first (λ u, User.username u = username) (users (db w2)) = Some user →
  check_password user password = Returns false →
  shown w1 (handle_login w1 username password).1 = [login_failed]
  ∧ shown w2 (handle_login w2 username password).1 = [login_failed]
  ∧ (handle_login w1 username password).2 = None
  ∧ (handle_login w2 username password).2 = None.
Proof.
  intros Hu Hp H1 H2 Hc. unfold handle_login.
  destruct (decide (username = "" ∨ password = "")) as [?|_]; [tauto|].
  rewrite H1, H2, Hc. cbn [fst snd]. by rewrite !shown_snackbar.
Qed.

(** C9. When the hash check raises on the password, the two failures
    differ.  [check_password] runs only once a row with the username was
    found, inside the [try]: for an unknown username [handle_login]
    shows "Invalid username or password", for a known one it shows
    "Login error: " followed by the text of the exception.  No user is
    handed on in either case. *)
Theorem handle_login_raise_distinguishes `{Bcrypt} (w1 w2 : World)
    (username password : string) (user : User.t) (ex : string) :
  username ≠ "" → password ≠ "" →
  query_first (λ u, User.username u = username) (users (db w1)) = None →
  query_first (λ u, User.username u = username) (users (db w2)) = Some user →
  check_password user password = Raises ex →
  shown w1 (handle_login w1 username password).1 = [login_failed]
  ∧ shown w2 (handle_login w2 username password).1
    = [mkSnackBar ("Login error: " +:+ ex) true]
  ∧ shown w1 (handle_login w1 username password).1
    ≠ shown w2 (handle_login w2 username password).1
  ∧ (handle_login w1 username password).2 = None
  ∧ (handle_login w2 username password).2 = None.
Proof.
  intros Hu Hp H1 H2 Hc. unfold handle_login.
  destruct (decide (username = "" ∨ password = "")) as [?|_]; [tauto|].
  rewrite H1, H2, Hc. cbn [fst snd]. rewrite !shown_snackbar.
  by repeat split.
Qed.

Lemma handle_login_raise_distinguishes_witness :
  let nul := String Ascii.zero "" in
  let w1 := mkWorld init_database [] in
  let w2 :=
    mkWorld (mkDB [User.mk 1 "alice" "a@x.com" "$2b$secret1"] [] [] [] [])
      [] in
  @check_password plain_bcrypt (User.mk 1 "alice" "a@x.com" "$2b$secret1")
    ("x" +:+ nul)
  = Raises null_password
  ∧ shown w1 (@handle_login plain_bcrypt w1 "alice" ("x" +:+ nul)).1
    = [mkSnackBar "Invalid username or password" true]
  ∧ shown w2 (@handle_login plain_bcrypt w2 "alice" ("x" +:+ nul)).1
    = [mkSnackBar
         "Login error: bcrypt does not allow NULL bytes in password" true].
Proof.
  intros nul w1 w2. split; [reflexivity|].
  destruct (@handle_login_raise_distinguishes plain_bcrypt w1 w2 "alice"
              ("x" +:+ nul) (User.mk 1 "alice" "a@x.com" "$2b$secret1")
              null_password)
    as (Ha & Hb & _); [discriminate | discriminate | reflexivity..|].
  split; [exact Ha | exact Hb].
Defined.

(** ** Signup *)

Section Signup.
Context `{Bcrypt} (any_row : list User.t → option User.t).
Hypothesis any_row_lawful : lawful_first any_row.






End Signup.




(** * Further properties of the handlers *)

(** ** Deleting a task *)

Lemma query_first_elem {A} (P : A → Prop) `{∀ x, Decision (P x)}
    (l : list A) (x : A) :
  query_first P l = Some x → x ∈ l ∧ P x.
Proof.
  unfold query_first. intros Hh. apply head_Some_elem_of in Hh.
  by apply list_elem_of_filter in Hh as [? ?].
Qed.

Lemma query_first_found {A} (P : A → Prop) `{∀ x, Decision (P x)}
    (l : list A) (x : A) :
  x ∈ l → P x → ∃ y, query_first P l = Some y.
Proof.
  intros Hx HP. destruct (query_first P l) as [y|] eqn:Hq; [by exists y|].
  apply query_first_None in Hq.
  by destruct (filter_nil_not_elem_of P l x Hq HP).
Qed.

Lemma delete_task_is_guest self w t :
  is_guest (delete_task self w t).1 = is_guest self.
Proof.
  unfold delete_task. destruct (is_guest self) eqn:Hg; [done|].
  by destruct (query_first _ _).
Qed.

Lemma filter_cell_of_other_task (l : list TaskCell.t) t t' c :
  t' ≠ t →
  filter (cell_of t' c) (filter (λ x, TaskCell.task_id x ≠ t) l)
  = filter (cell_of t' c) l.
Proof.
  intros Hne. rewrite list_filter_filter. apply list_filter_iff.
  intros x. unfold cell_of. split; [tauto|].
  intros [Ht Hc]. repeat split; try done. intros Hx. congruence.
Qed.

Lemma filter_cell_of_same_task (l : list TaskCell.t) t c :
  filter (cell_of t c) (filter (λ x, TaskCell.task_id x ≠ t) l) = [].
Proof.
  rewrite list_filter_filter.
  induction l as [|x l IH]; [done|].
  rewrite filter_cons_False; [done|]. unfold cell_of. tauto.
Qed.

(** X1. Deleting a task deletes its cells, in both branches: for a guest
    always, in the database when a row with that id exists.  Afterwards
    the id is not among the stored tasks and every column of the task
    reads as empty, with no cell behind it. *)
Theorem delete_task_removes_cells (self : TaskTableView) (w : World)
    (t : Z) :
  (is_guest self = false → t ∈ (Task.id <$> tasks (db w))) →
  let sw := delete_task self w t in
  (t ∉ (λ r, r.1.1) <$> task_rows sw)
  ∧ ∀ c, read_cell sw t c = "" ∧ stored_cells sw t c = [].
Proof.
  intros Hex sw. subst sw.
  unfold task_rows, read_cell, stored_cells, get_cell_value, cells_for.
  rewrite delete_task_is_guest. unfold delete_task.
  destruct (is_guest self) eqn:Hg; cbn [fst snd].
  - split.
    + simpl. rewrite <- list_fmap_compose.
      intros (x & Hid & [Hne _]%list_elem_of_filter)%list_elem_of_fmap.
      by apply Hne.
    + intros c. simpl. by rewrite lookup_delete_eq.
  - specialize (Hex eq_refl).
    apply list_elem_of_fmap in Hex as (row & -> & Hrow).
    destruct (query_first_found (λ x, Task.id x = Task.id row) _ row Hrow
                eq_refl) as (db_task & Hq).
    rewrite Hq. cbn [fst snd].
    apply query_first_elem in Hq as [_ Hid].
    unfold session_delete_Task. cbn [db show_snackbar set_db tasks task_cells].
    rewrite Hid. split.
    + rewrite <- list_fmap_compose.
      intros (x & Hx & [Hne _]%list_elem_of_filter)%list_elem_of_fmap.
      by apply Hne.
    + intros c. unfold query_first.
      by rewrite filter_cell_of_same_task.
Qed.

Lemma delete_task_removes_cells_witness :
  let self := mkTaskTableView (BoardRef.mk 1 "Demo") false [] [] ∅ 0 0 in
  let w :=
    mkWorld
      (mkDB [] [Board.mk 1 "Demo" 1] [BoardColumn.mk 1 1 "Status" "status" 0]
         [Task.mk 1 1 "New Task 1" 0] [TaskCell.mk 1 1 1 "Done"]) [] in
  get_cell_value self w 1 1 = "Done"
  ∧ 1 ∈ (Task.id <$> tasks (db w))
  ∧ read_cell (delete_task self w 1) 1 1 = "".
Proof.
  intros self w. split; [reflexivity|].
  assert (Hin : is_guest self = false → 1 ∈ (Task.id <$> tasks (db w)))
    by (intros _; simpl; by left).
  split; [exact (Hin eq_refl)|].
  exact (proj1 (proj2 (delete_task_removes_cells self w 1 Hin) 1)).
Defined.

(** X2. Deleting a task leaves every other task and its cells as they
    were. *)
Theorem delete_task_other_tasks (self : TaskTableView) (w : World)
    (t t' : Z) :
  t' ≠ t →
  let sw := delete_task self w t in
  (t' ∈ ((λ r, r.1.1) <$> task_rows sw)
   ↔ t' ∈ ((λ r, r.1.1) <$> task_rows (self, w)))
  ∧ ∀ c, read_cell sw t' c = get_cell_value self w t' c
         ∧ stored_cells sw t' c = cells_for self w t' c.
Proof.
  intros Hne sw. subst sw.
  unfold task_rows, read_cell, stored_cells, get_cell_value, cells_for.
  rewrite delete_task_is_guest. unfold delete_task. cbn [fst snd].
  destruct (is_guest self) eqn:Hg; cbn [fst snd].
  - split.
    + simpl. rewrite <- !list_fmap_compose, !list_elem_of_fmap.
      split; intros (x & Hid & Hx); exists x; (split; [done|]).
      * by apply list_elem_of_filter in Hx as [_ ?].
      * apply list_elem_of_filter. split; [|done]. simpl in Hid. congruence.
    + intros c. simpl. by rewrite lookup_delete_ne.
  - destruct (query_first _ _) as [db_task|] eqn:Hq; cbn [fst snd]; [|done].
    apply query_first_elem in Hq as [_ Hid].
    unfold session_delete_Task. cbn [db show_snackbar set_db tasks task_cells].
    rewrite Hid. split.
    + rewrite <- !list_fmap_compose, !list_elem_of_fmap.
      split; intros (x & Hx & Hin); exists x; (split; [done|]).
      * by apply list_elem_of_filter in Hin as [_ ?].
      * apply list_elem_of_filter. split; [|done]. simpl in Hx. congruence.
    + intros c. unfold query_first.
      by rewrite filter_cell_of_other_task.
Qed.

Lemma delete_task_other_tasks_witness :
  let self :=
    mkTaskTableView (BoardRef.mk 1 "Demo") true []
      [GuestTask.mk 1 "New Task 1" 0 1; GuestTask.mk 2 "New Task 2" 1 1]
      {[ 1 := {[ 1 := "Done" ]}; 2 := {[ 1 := "Stuck" ]} ]} 0 2 in
  let w := mkWorld init_database [] in
  read_cell (delete_task self w 1) 2 1 = "Stuck".
Proof.
  intros self w.
  assert (Hne : 2 ≠ 1) by lia.
  exact (eq_trans
           (proj1 (proj2 (delete_task_other_tasks self w 1 2 Hne) 1))
           eq_refl).
Defined.

(** ** Writing a cell, deleting a column: the rest is untouched *)

Lemma fmap_fixed {A} (f : A → A) (l : list A) :
  (∀ x, x ∈ l → f x = x) → f <$> l = l.
Proof.
  induction l as [|x l IH]; intros Hall; [done|].
  rewrite fmap_cons, Hall by by left.
  f_equal. apply IH. intros y Hy. apply Hall. by right.
Qed.

Lemma persistent_update_other (self : TaskTableView) (w : World)
    (t c : Z) (v : string) (t' c' : Z) :
  (t', c') ≠ (t, c) →
  is_guest self = false →
  NoDup (TaskCell.id <$> task_cells (db w)) →
  filter (cell_of t' c') (task_cells (db (update_cell self w t c v).2))
  = filter (cell_of t' c') (task_cells (db w)).
Proof.
  intros Hne Hg Hnd. unfold update_cell. rewrite Hg.
  destruct (query_first _ _) as [cell|] eqn:Hq; cbn [fst snd db set_db].
  - rewrite filter_update_TaskCell_value.
    apply query_first_elem in Hq as [Hin [Ht Hc]].
    apply fmap_fixed.
    intros x [[Hxt Hxc] Hx]%list_elem_of_filter.
    case_decide as Hid; [|done]. exfalso. apply Hne.
    rewrite (NoDup_fmap_eq TaskCell.id _ x cell Hnd Hx Hin Hid)
      in Hxt, Hxc.
    congruence.
  - unfold add_TaskCell. cbn [task_cells set_task_cells].
    rewrite filter_app, filter_cons_False, filter_nil.
    + apply app_nil_r.
    + intros [Ht Hc]. simpl in *. congruence.
Qed.

Lemma guest_update_other (self : TaskTableView) (w : World)
    (t c : Z) (v : string) (t' c' : Z) :
  (t', c') ≠ (t, c) →
  is_guest self = true →
  default ∅ (guest_cells (update_cell self w t c v).1 !! t') !! c'
  = default ∅ (guest_cells self !! t') !! c'.
Proof.
  intros Hne Hg. unfold update_cell. rewrite Hg. cbn [fst guest_cells
    set_guest_cells].
  destruct (decide (t' = t)) as [->|Ht].
  - assert (c' ≠ c) by congruence.
    rewrite lookup_alter_eq.
    destruct (guest_cells self !! t) as [m|] eqn:Hm.
    + rewrite Hm. simpl. by rewrite lookup_insert_ne.
    + rewrite lookup_insert_eq. simpl. by rewrite lookup_insert_ne.
  - rewrite lookup_alter_ne by done.
    destruct (guest_cells self !! t); [done|].
    by rewrite lookup_insert_ne.
Qed.

(** X3. Writing the cell of one (task, column) pair changes the cell of
    no other pair, in both branches; in the database this rests on the
    cell ids being unique, since the write is an UPDATE by id. *)
Theorem update_cell_other_cells (self : TaskTableView) (w : World)
    (t c : Z) (v : string) (t' c' : Z) :
  (t', c') ≠ (t, c) →
  (is_guest self = false → NoDup (TaskCell.id <$> task_cells (db w))) →
  read_cell (update_cell self w t c v) t' c' = get_cell_value self w t' c'
  ∧ stored_cells (update_cell self w t c v) t' c' = cells_for self w t' c'.
Proof.
  intros Hne Hnd.
  unfold read_cell, stored_cells, get_cell_value, cells_for.
  rewrite update_cell_is_guest.
  destruct (is_guest self) eqn:Hg.
  - by rewrite guest_update_other.
  - unfold query_first. by rewrite persistent_update_other by auto.
Qed.

Lemma update_cell_other_cells_witness :
  let self := mkTaskTableView (BoardRef.mk 1 "Demo") false [] [] ∅ 0 0 in
  let w :=
    mkWorld
      (mkDB [] [Board.mk 1 "Demo" 1] []
         [Task.mk 1 1 "New Task 1" 0]
         [TaskCell.mk 1 1 1 "Done"; TaskCell.mk 2 1 2 "call back"]) [] in
  NoDup (TaskCell.id <$> task_cells (db w))
  ∧ read_cell (update_cell self w 1 1 "Stuck") 1 2 = "call back".
Proof.
  intros self w.
  assert (Hnd : NoDup (TaskCell.id <$> task_cells (db w)))
    by (simpl; compute_done).
  split; [exact Hnd|].
  assert (Hne : (1, 2) ≠ (1, 1)) by congruence.
  exact (eq_trans
           (proj1 (update_cell_other_cells self w 1 1 "Stuck" 1 2 Hne
                     (λ _, Hnd)))
           eq_refl).
Defined.

Lemma delete_column_is_guest self w c name :
  is_guest (delete_column self w c name).1 = is_guest self.
Proof.
  unfold delete_column. destruct (is_guest self) eqn:Hg; [done|].
  by destruct (query_first _ _).
Qed.

Lemma delete_column_board self w c name :
  board (delete_column self w c name).1 = board self.
Proof.
  unfold delete_column. destruct (is_guest self) eqn:Hg; [done|].
  by destruct (query_first _ _).
Qed.

(** X4. After [delete_column] the column's id is no longer among the
    board's columns; the other columns stay, and their cells read as
    before, in both branches. *)
Theorem delete_column_other_columns (self : TaskTableView) (w : World)
    (c : Z) (name : string) :
  let sw := delete_column self w c name in
  (c ∉ column_ids sw)
  ∧ ∀ c', c' ≠ c →
      (c' ∈ column_ids sw ↔ c' ∈ column_ids (self, w))
      ∧ ∀ t, read_cell sw t c' = get_cell_value self w t c'.
Proof.
  intros sw. subst sw. unfold column_ids, read_cell, get_cell_value.
  rewrite delete_column_is_guest, delete_column_board.
  unfold delete_column. cbn [fst snd].
  destruct (is_guest self) eqn:Hg; cbn [fst snd].
  - split.
    + simpl.
      intros (x & Hid & [Hne _]%list_elem_of_filter)%list_elem_of_fmap.
      by apply Hne.
    + intros c' Hne. split.
      * simpl. rewrite !list_elem_of_fmap.
        split; intros (x & Hid & Hx); exists x; (split; [done|]).
        -- by apply list_elem_of_filter in Hx as [_ ?].
        -- apply list_elem_of_filter. split; [congruence | done].
      * intros t. simpl. rewrite lookup_fmap.
        destruct (guest_cells self !! t); simpl; [|done].
        by rewrite lookup_delete_ne.
  - destruct (query_first _ _) as [db_column|] eqn:Hq; cbn [fst snd].
    + apply query_first_elem in Hq as [_ Hid].
      unfold session_delete_BoardColumn.
      cbn [db show_snackbar set_db board_columns set_board_columns
           task_cells].
      rewrite Hid. split.
      * intros (x & Hx & [_ [Hne _]%list_elem_of_filter]%list_elem_of_filter)
          %list_elem_of_fmap.
        by apply Hne.
      * intros c' Hne. split; [|done].
        rewrite !list_elem_of_fmap.
        split; intros (x & Hx & Hin); exists x; (split; [done|]).
        -- apply list_elem_of_filter in Hin as [Hb Hin].
           apply list_elem_of_filter in Hin as [_ Hin].
           by apply list_elem_of_filter.
        -- apply list_elem_of_filter in Hin as [Hb Hin].
           apply list_elem_of_filter. split; [done|].
           apply list_elem_of_filter. split; [congruence | done].
    + split; [|done].
      intros (x & Hx & [_ Hin]%list_elem_of_filter)%list_elem_of_fmap.
      apply query_first_None in Hq.
      by apply (filter_nil_not_elem_of _ _ x Hq).
Qed.

Lemma delete_column_other_columns_witness :
  let self :=
    mkTaskTableView (BoardRef.mk 1 "Demo") true
      [GuestColumn.mk 1 "Status" "status" 0; GuestColumn.mk 2 "Notes" "text" 1]
      [GuestTask.mk 1 "New Task 1" 0 1]
      {[ 1 := {[ 1 := "Done"; 2 := "call back" ]} ]} 2 1 in
  let w := mkWorld init_database [] in
  2 ≠ 1
  ∧ column_ids (delete_column self w 1 "Status") = [2]
  ∧ read_cell (delete_column self w 1 "Status") 1 2 = "call back".
Proof.
  intros self w.
  assert (Hne : 2 ≠ 1) by lia.
  split; [exact Hne|]. split; [reflexivity|].
  exact (eq_trans
           (proj2 (proj2 (delete_column_other_columns self w 1 "Status") 2
                     Hne) 1)
           eq_refl).
Defined.

(** ** Renaming a task *)

Lemma lstrip_empty s : lstrip s = "" ↔ all_space s = true.
Proof.
  induction s as [|a s IH]; [done|].
  simpl. destruct (py_isspace a); simpl; [done|].
  split; intros ?; discriminate.
Qed.

Lemma rstrip_empty s : rstrip s = "" ↔ all_space s = true.
Proof.
  induction s as [|a s IH]; [done|].
  simpl. destruct (rstrip s) as [|b r].
  - destruct (py_isspace a); simpl; [tauto|].
    split; intros ?; discriminate.
  - split; [discriminate|].
    intros [_ Hs]%andb_prop. apply IH in Hs. discriminate.
Qed.

Lemma lstrip_all_space s : all_space (lstrip s) = all_space s.
Proof.
  induction s as [|a s IH]; [done|].
  simpl. destruct (py_isspace a) eqn:Ha; simpl; [done|]. by rewrite Ha.
Qed.

Lemma strip_empty s : strip s = "" ↔ all_space s = true.
Proof. unfold strip. by rewrite rstrip_empty, lstrip_all_space. Qed.

Lemma rename_rows_absent (l : list GuestTask.t) (t : Z) (new_name : string) :
  t ∉ GuestTask.id <$> l →
  (λ r : Z * string * Z,
     (r.1.1, if decide (r.1.1 = t) then new_name else r.1.2, r.2))
    <$> ((λ g, (GuestTask.id g, GuestTask.name g, GuestTask.position g))
           <$> l)
  = (λ g, (GuestTask.id g, GuestTask.name g, GuestTask.position g)) <$> l.
Proof.
  intros Hnotin. rewrite <- list_fmap_compose. apply list_fmap_ext.
  intros i x Hx. cbn [compose fst snd]. rewrite decide_False; [done|].
  intros Hxt. apply Hnotin. rewrite <- Hxt.
  apply list_elem_of_fmap_2. by eapply list_elem_of_lookup_2.
Qed.

Lemma rename_guest_task_rows (l : list GuestTask.t) t new_name :
  NoDup (GuestTask.id <$> l) →
  (λ g, (GuestTask.id g, GuestTask.name g, GuestTask.position g))
    <$> rename_guest_task l t new_name
  = (λ r : Z * string * Z,
       (r.1.1, if decide (r.1.1 = t) then new_name else r.1.2, r.2))
      <$> ((λ g, (GuestTask.id g, GuestTask.name g, GuestTask.position g))
             <$> l).
Proof.
  induction l as [|g l IH]; intros Hnd; [done|].
  rewrite fmap_cons in Hnd. apply NoDup_cons in Hnd as [Hnotin Hnd].
  cbn [rename_guest_task]. rewrite (fmap_cons _ g l), fmap_cons.
  cbn [fst snd]. destruct (decide (GuestTask.id g = t)) as [Hid|Hid].
  - rewrite fmap_cons. cbn [GuestTask.id GuestTask.name GuestTask.position].
    f_equal. symmetry. apply rename_rows_absent. by rewrite <- Hid.
  - rewrite fmap_cons. f_equal. by apply IH.
Qed.

(** X5. For a name whose characters all have code points below 256:
    [update_task_name] ignores a name made of whitespace only (the
    empty name included) and changes nothing.  Any other name is stored
    exactly as typed, surrounding whitespace included, on the task with
    the given id; no other task changes, no position changes and no
    cell changes.  For a guest this rests on the task ids being
    distinct, since only the first task with the id is renamed. *)
Theorem update_task_name_stored (self : TaskTableView) (w : World)
    (t : Z) (new_name : string) :
  (all_space new_name = true →
   update_task_name self w t new_name = (self, w))
  ∧ (all_space new_name = false →
     (is_guest self = true → NoDup (GuestTask.id <$> guest_tasks self)) →
     let sw := update_task_name self w t new_name in
     task_rows sw
     = (λ r : Z * string * Z,
          (r.1.1, if decide (r.1.1 = t) then new_name else r.1.2, r.2))
         <$> task_rows (self, w)
     ∧ ∀ t' c, read_cell sw t' c = get_cell_value self w t' c).
Proof.
  split.
  - intros Hb. unfold update_task_name.
    by rewrite decide_True by by apply strip_empty.
  - intros Hb Hnd sw. subst sw.
    assert (Hs : strip new_name ≠ "")
      by (rewrite strip_empty; by rewrite Hb).
    unfold update_task_name, task_rows, read_cell, get_cell_value.
    rewrite decide_False by done. cbn [fst snd].
    destruct (is_guest self) eqn:Hg; cbn [fst snd].
    + simpl. rewrite Hg. split; [|done].
      by apply rename_guest_task_rows, Hnd.
    + destruct (query_first _ _) as [db_task|] eqn:Hq; cbn [fst snd].
      * simpl. rewrite Hg. split; [|done].
        apply query_first_elem in Hq as [_ Hid].
        rewrite <- !list_fmap_compose. apply list_fmap_ext.
        intros i x Hx. simpl. rewrite Hid. by case_decide.
      * rewrite Hg. split; [|done].
        rewrite <- list_fmap_compose. symmetry.
        rewrite <- (list_fmap_id (tasks (db w))) at 2.
        rewrite <- list_fmap_compose. apply list_fmap_ext.
        intros i x Hx. simpl. rewrite decide_False; [by destruct x|].
        intros Hxt. apply query_first_None in Hq.
        apply (filter_nil_not_elem_of _ _ x Hq Hxt).
        by eapply list_elem_of_lookup_2.
Qed.

Lemma update_task_name_stored_witness :
  let self :=
    mkTaskTableView (BoardRef.mk 1 "Demo") true []
      [GuestTask.mk 1 "New Task 1" 0 1; GuestTask.mk 2 "New Task 2" 1 1]
      ∅ 0 2 in
  let w := mkWorld init_database [] in
  (all_space "  " = true
   ∧ update_task_name self w 2 "  " = (self, w))
  ∧ (all_space " Call Ann " = false
     ∧ task_rows (update_task_name self w 2 " Call Ann ")
       = [(1, "New Task 1", 0); (2, " Call Ann ", 1)]).
Proof.
  intros self w.
  pose proof (update_task_name_stored self w 2 "  ") as [Ha _].
  pose proof (update_task_name_stored self w 2 " Call Ann ") as [_ Hb].
  split; [split; [reflexivity | exact (Ha eq_refl)]|].
  split; [reflexivity|].
  assert (Hnd : is_guest self = true → NoDup (GuestTask.id <$> guest_tasks self))
    by (intros _; simpl; compute_done).
  exact (eq_trans (proj1 (Hb eq_refl Hnd)) eq_refl).
Defined.

(** ** Adding a column *)

Lemma create_column_is_guest self w name ty :
  is_guest (create_column self w name ty).1 = is_guest self.
Proof.
  unfold create_column. case_decide; [done|].
  by destruct (is_guest self) eqn:Hg.
Qed.

Lemma create_column_board self w name ty :
  board (create_column self w name ty).1 = board self.
Proof.
  unfold create_column. case_decide; [done|]. by destruct (is_guest self).
Qed.

(** X6. [create_column] rejects the empty name with an error
    notification and stores nothing.  With any other name it appends
    one column of the given type to the board, at the position equal to
    the number of columns the board has, and leaves the board's other
    columns, the tasks and the cells as they were. *)
Theorem create_column_appends (self : TaskTableView) (w : World)
    (name col_type : string) :
  (name = "" →
   create_column self w name col_type
   = (self, show_snackbar w "Column name is required" true))
  ∧ (name ≠ "" →
     let sw := create_column self w name col_type in
     column_rows sw
     = (column_rows (self, w) ++
          [(name, col_type, Z.of_nat (length (column_rows (self, w))))])%list
     ∧ task_rows sw = task_rows (self, w)
     ∧ ∀ t c, read_cell sw t c = get_cell_value self w t c).
Proof.
  split.
  - intros ->. unfold create_column. by rewrite decide_True.
  - intros Hn sw. subst sw.
    unfold column_rows, task_rows, read_cell, get_cell_value.
    rewrite create_column_is_guest, create_column_board.
    unfold create_column. rewrite decide_False by done. cbn [fst snd].
    destruct (is_guest self) eqn:Hg; cbn [fst snd].
    + simpl. by rewrite fmap_app, length_fmap.
    + unfold add_BoardColumn, query_count. simpl.
      rewrite filter_app, filter_cons_True, filter_nil by done.
      by rewrite fmap_app, length_fmap.
Qed.

Lemma create_column_appends_witness :
  let sw0 :=
    TaskTableView_init (BoardRef.mk 1 "Demo") true
      (mkWorld init_database []) in
  "Owner" ≠ ""
  ∧ column_rows (create_column sw0.1 sw0.2 "Owner" "text")
    = [("Status", "status", 0); ("Notes", "text", 1);
       ("Due Date", "date", 2); ("Owner", "text", 3)].
Proof.
  intros sw0.
  assert (Hn : "Owner" ≠ "") by discriminate.
  split; [exact Hn|].
  exact (eq_trans
           (proj1 (proj2 (create_column_appends sw0.1 sw0.2 "Owner" "text")
                     Hn))
           eq_refl).
Defined.

(** ** Invariants along any sequence of actions on a table *)








Lemma filter_filter_length {A} (P Q : A → Prop) `{∀ x, Decision (P x)}
    `{∀ x, Decision (Q x)} (l : list A) :
  (length (filter P (filter Q l)) ≤ length (filter P l))%nat.
Proof.
  induction l as [|x l IH]; [done|].
  destruct (decide (Q x)) as [HQ|HQ].
  - rewrite (filter_cons_True Q x l HQ).
    destruct (decide (P x)) as [HP|HP].
    + rewrite !filter_cons_True by done. simpl. lia.
    + by rewrite !(filter_cons_False P) by done.
  - rewrite (filter_cons_False Q x l HQ).
    destruct (decide (P x)) as [HP|HP].
    + rewrite (filter_cons_True P x l HP). simpl. lia.
    + by rewrite (filter_cons_False P x l HP).
Qed.

Lemma session_delete_Task_cells_unique d t :
  cells_unique d → cells_unique (session_delete_Task d t).
Proof.
  intros Hu t' c'. unfold session_delete_Task. cbn [task_cells].
  etrans; [apply filter_filter_length | apply Hu].
Qed.

Lemma cells_unique_table_step (sw : TaskTableView * World)
    (a : TableAction) :
  cells_unique (db sw.2) → cells_unique (db (table_step sw a).2).
Proof.
  destruct sw as [self w]. intros Hu.
  destruct a as [|t|t n|n ty|c n|t c v|t c]; cbn [table_step fst snd].
  - unfold add_task. by destruct (is_guest self).
  - unfold delete_task. destruct (is_guest self); [done|].
    destruct (query_first _ _); [|done].
    by apply session_delete_Task_cells_unique.
  - unfold update_task_name. case_decide; [done|].
    destruct (is_guest self); [done|]. by destruct (query_first _ _).
  - unfold create_column. case_decide; [done|].
    by destruct (is_guest self).
  - unfold delete_column. destruct (is_guest self); [done|].
    by destruct (query_first _ _).
  - by apply update_cell_cells_unique.
  - unfold cycle_status. by apply update_cell_cells_unique.
Qed.

(** What rebuilding the board view can change in the database: it may
    append columns, and nothing else. *)
Lemma refresh_board_view_tables d w :
  let w' := (refresh_board_view d w).2 in
  users (db w') = users (db w)
  ∧ boards (db w') = boards (db w)
  ∧ tasks (db w') = tasks (db w)
  ∧ task_cells (db w') = task_cells (db w)
  ∧ overlay w' = overlay w
  ∧ ∃ new, board_columns (db w') = (board_columns (db w) ++ new)%list.
Proof.
  unfold refresh_board_view, BoardView_init.
  destruct (DashboardView.current_board d) as [b|]; cbn [fst snd].
  - unfold TaskTableView_init, seed_default_columns. cbn [is_guest].
    destruct (DashboardView.is_guest d); cbn [fst snd].
    + repeat split; try done. exists []. by rewrite app_nil_r.
    + unfold _ensure_default_columns. case_decide; cbn [fst snd].
      * repeat split; try done. unfold add_BoardColumn. simpl.
        eexists. by rewrite <- !app_assoc.
      * repeat split; try done. exists []. by rewrite app_nil_r.
  - repeat split; try done. exists []. by rewrite app_nil_r.
Qed.

Lemma foldl_delete_Task_cells_unique ts d :
  cells_unique d → cells_unique (foldl session_delete_Task d ts).
Proof.
  revert d. induction ts as [|t ts IH]; intros d Hu; [done|].
  simpl. by apply IH, session_delete_Task_cells_unique.
Qed.

Lemma cells_unique_sidebar_step (dw : DashboardView.t * World)
    (a : SidebarAction) :
  cells_unique (db dw.2) → cells_unique (db (sidebar_step dw a).2).
Proof.
  destruct dw as [d w]. intros Hu.
  assert (Hr : ∀ d0 w0, cells_unique (db w0) →
                        cells_unique (db (refresh_board_view d0 w0).2)).
  { intros d0 w0 Hu0 t c.
    destruct (refresh_board_view_tables d0 w0) as (_ & _ & _ & -> & _).
    apply Hu0. }
  destruct a as [b|n|b n|b]; cbn [sidebar_step fst snd].
  - unfold select_board, handle_board_select. by apply Hr.
  - unfold create_board. case_decide; [done|].
    destruct (BoardSidebar.is_guest _); [by apply Hr|].
    destruct (BoardSidebar.user_id _); [by apply Hr | done].
  - unfold rename_board. case_decide; [done|].
    destruct (BoardSidebar.is_guest _); [by apply Hr|].
    destruct (query_first _ _); [by apply Hr | done].
  - unfold delete_board.
    destruct (BoardSidebar.is_guest _); [by apply Hr|].
    destruct (query_first _ _) as [db_board|]; [|done].
    apply Hr. cbn [db show_snackbar set_db].
    unfold session_delete_Board. intros t' c'. cbn [task_cells].
    by apply foldl_delete_Task_cells_unique.
Qed.

(** X8. No sequence of actions, on a table or on the sidebar, ever
    leaves two cell rows for one (task, column) pair in a database that
    had at most one per pair: the read-before-write of [update_cell] is
    the only place a cell row is inserted. *)
Theorem cells_stay_unique :
  (∀ (actions : list TableAction) (sw : TaskTableView * World),
     cells_unique (db sw.2) → cells_unique (db (table_run actions sw).2))
  ∧ (∀ (actions : list SidebarAction) (dw : DashboardView.t * World),
       cells_unique (db dw.2) →
       cells_unique (db (sidebar_run actions dw).2)).
Proof.
  split.
  - unfold table_run. induction actions as [|a actions IH]; intros sw Hu;
      [done|].
    simpl. by apply IH, cells_unique_table_step.
  - unfold sidebar_run. induction actions as [|a actions IH]; intros dw Hu;
      [done|].
    simpl. by apply IH, cells_unique_sidebar_step.
Qed.

Lemma cells_stay_unique_witness :
  let sw0 :=
    TaskTableView_init (BoardRef.mk 1 "Demo") false
      (mkWorld (mkDB [] [Board.mk 1 "Demo" 1] [] [] []) []) in
  let actions :=
    [AddTask; UpdateCell 1 1 "Done"; CycleStatus 1 1; UpdateCell 1 1 "";
     AddTask; UpdateCell 2 1 "Stuck"; DeleteTask 2] in
  cells_unique (db sw0.2)
  ∧ cells_unique (db (table_run actions sw0).2)
  ∧ task_cells (db (table_run actions sw0).2) = [TaskCell.mk 1 1 1 ""].
Proof.
  intros sw0 actions.
  assert (Hu : cells_unique (db sw0.2)) by (intros t c; simpl; lia).
  split; [exact Hu|].
  split; [exact (proj1 cells_stay_unique actions sw0 Hu) | reflexivity].
Defined.

(** ** Signup and login: outcomes *)

Lemma shown_set_db_snackbar w d msg err :
  shown w (show_snackbar (set_db w d) msg err) = [mkSnackBar msg err].
Proof.
  unfold shown, show_snackbar, set_db. simpl. by rewrite drop_app_length.
Qed.

Ltac signup_refused :=
  right; cbn [fst snd]; rewrite shown_snackbar; eauto.

(** X9. [handle_signup] has two outcomes, whatever row the lookup
    returns.  Either it shows "Account created", switches to the login
    screen and has appended exactly one user row, carrying the username,
    the email and the hash of the password, to a table in which neither
    the username nor the email occurred; that needs non-empty fields, a
    matching confirmation, at least 6 characters and a password the
    hashing library accepts.  Or it shows one error notification, does
    not switch, and leaves the database as it was. *)
Theorem handle_signup_outcome `{Bcrypt}
    (any_row : list User.t → option User.t) (w : World)
    (username email password confirm_password : string) :
  let r :=
    handle_signup any_row w username email password confirm_password in
  (r.2 = true
   ∧ shown w r.1 = [account_created]
   ∧ (∃ hash,
        bcrypt_hash password = Returns hash
        ∧ db r.1
          = set_users (db w)
              (users (db w) ++
                 [User.mk (next_id (User.id <$> users (db w))) username
                    email hash]))
   ∧ ¬ Exists (collides username email) (users (db w))
   ∧ username ≠ "" ∧ email ≠ "" ∧ confirm_password = password
   ∧ (6 ≤ String.length password)%nat)
  ∨ (r.2 = false
     ∧ db r.1 = db w
     ∧ ∃ msg, shown w r.1 = [mkSnackBar msg true]).
Proof.
  intros r. subst r. unfold handle_signup.
  case_decide as He; [signup_refused|].
  case_decide as Hm; [signup_refused|].
  case_decide as Hl; [signup_refused|].
  destruct (any_row _) as [existing|].
  { case_decide; signup_refused. }
  destruct (bcrypt_hash password) as [hash|ex]; [|signup_refused].
  unfold add_User. case_decide as Hc; [signup_refused|].
  left. cbn [fst snd]. rewrite shown_set_db_snackbar.
  repeat split; try done; try tauto; [by exists hash | lia].
Qed.

(** X10. The three validations of [handle_signup] come before any
    lookup and in this order: an empty field gives "Please fill in all
    fields", also when the passwords differ; then a confirmation that
    differs gives "Passwords do not match", also when the password is
    short; then a password of fewer than 6 characters gives its message,
    also when the username is taken. *)
Theorem handle_signup_validation `{Bcrypt}
    (any_row : list User.t → option User.t) (w : World)
    (username email password confirm_password : string) :
  let r :=
    handle_signup any_row w username email password confirm_password in
  (username = "" ∨ email = "" ∨ password = "" ∨ confirm_password = "" →
   r = (show_snackbar w "Please fill in all fields" true, false))
  ∧ (username ≠ "" → email ≠ "" → password ≠ "" → confirm_password ≠ "" →
     password ≠ confirm_password →
     r = (show_snackbar w "Passwords do not match" true, false))
  ∧ (username ≠ "" → email ≠ "" → password ≠ "" →
     confirm_password = password →
     (String.length password < 6)%nat →
     r = (show_snackbar w "Password must be at least 6 characters" true,
          false)).
Proof.
  intros r. subst r. unfold handle_signup. repeat split.
  - intros He. by rewrite decide_True.
  - intros Hu He Hp Hc Hm. rewrite decide_False by tauto.
    by rewrite decide_True.
  - intros Hu He Hp -> Hl. rewrite decide_False by tauto.
    rewrite (decide_False (P := password ≠ password)) by tauto.
    by rewrite decide_True.
Qed.

Lemma handle_signup_validation_witness :
  let w :=
    mkWorld (mkDB [User.mk 1 "alice" "a@x.com" "$2b$secret1"] [] [] [] [])
      [] in
  (String.length "abc" < 6)%nat
  ∧ @handle_signup plain_bcrypt head w "alice" "a@x.com" "abc" "abc"
    = (show_snackbar w "Password must be at least 6 characters" true, false)
  ∧ @handle_signup plain_bcrypt head w "alice" "a@x.com" "abc" "secret1"
    = (show_snackbar w "Passwords do not match" true, false)
  ∧ @handle_signup plain_bcrypt head w "alice" "" "abc" "secret1"
    = (show_snackbar w "Please fill in all fields" true, false).
Proof.
  intros w.
  assert (Hl : (String.length "abc" < 6)%nat) by (simpl; lia).
  split; [exact Hl|]. split; [|split].
  - apply (proj2 (proj2 (@handle_signup_validation plain_bcrypt head w
                           "alice" "a@x.com" "abc" "abc")));
      [discriminate | discriminate | discriminate | reflexivity | exact Hl].
  - apply (proj1 (proj2 (@handle_signup_validation plain_bcrypt head w
                           "alice" "a@x.com" "abc" "secret1")));
      discriminate.
  - apply (proj1 (@handle_signup_validation plain_bcrypt head w
                    "alice" "" "abc" "secret1")).
    right. by left.
Defined.

Lemma NoDup_snoc_notin {A} (l : list A) (x : A) :
  NoDup l → x ∉ l → NoDup (l ++ [x])%list.
Proof.
  intros Hnd Hx. apply NoDup_app. split; [done|].
  split; [|apply NoDup_singleton].
  by intros y Hy ->%list_elem_of_singleton.
Qed.

(** X11. [handle_signup] keeps usernames and emails unique, whatever
    row the lookup returns: a duplicate that the lookup missed would be
    refused at commit.  And when the lookup is lawful the commit never
    refuses: the "Username or email already exists" notification of the
    IntegrityError branch is never shown. *)
Theorem handle_signup_keeps_unique `{Bcrypt}
    (any_row : list User.t → option User.t) (w : World)
    (username email password confirm_password : string) :
  let r :=
    handle_signup any_row w username email password confirm_password in
  (users_unique (db w) → users_unique (db r.1))
  ∧ (lawful_first any_row →
     shown w r.1 ≠ [mkSnackBar "Username or email already exists" true]).
Proof.
  intros r. split.
  - intros [Hun Hem].
    destruct (handle_signup_outcome any_row w username email password
                confirm_password)
      as [(_ & _ & (hash & _ & Hd) & Hc & _)|(_ & Hd & _)];
      fold r in Hd; rewrite Hd; [|done].
    unfold users_unique. cbn [users set_users]. rewrite !fmap_app.
    split; apply NoDup_snoc_notin; try done.
    + intros (x & Hx & Hin)%list_elem_of_fmap. apply Hc.
      apply Exists_exists. exists x. split; [done|]. by left.
    + intros (x & Hx & Hin)%list_elem_of_fmap. apply Hc.
      apply Exists_exists. exists x. split; [done|]. by right.
  - intros Hl. subst r. unfold handle_signup.
    case_decide; [cbn [fst]; rewrite shown_snackbar; discriminate|].
    case_decide; [cbn [fst]; rewrite shown_snackbar; discriminate|].
    case_decide; [cbn [fst]; rewrite shown_snackbar; discriminate|].
    pose proof (Hl (filter (collides username email) (users (db w))))
      as Hrow.
    destruct (any_row _) as [existing|].
    { case_decide; cbn [fst]; rewrite shown_snackbar; discriminate. }
    destruct (bcrypt_hash password) as [hash|ex];
      [|cbn [fst]; rewrite shown_snackbar; discriminate].
    unfold add_User. rewrite decide_False.
    + cbn [fst]. rewrite shown_set_db_snackbar. discriminate.
    + intros (x & Hx & Hc)%Exists_exists.
      by apply (filter_nil_not_elem_of _ _ x Hrow).
Qed.

Lemma handle_signup_keeps_unique_witness :
  let w :=
    mkWorld (mkDB [User.mk 1 "alice" "a@x.com" "$2b$secret1"] [] [] [] [])
      [] in
  let r :=
    @handle_signup plain_bcrypt head w "bob" "b@y.com" "secret2" "secret2" in
  users_unique (db w)
  ∧ users_unique (db r.1)
  ∧ (User.username <$> users (db r.1)) = ["alice"; "bob"].
Proof.
  intros w r.
  assert (Hu : users_unique (db w)) by (split; simpl; compute_done).
  split; [exact Hu|].
  split; [|reflexivity].
  exact (proj1 (@handle_signup_keeps_unique plain_bcrypt head w "bob"
                  "b@y.com" "secret2" "secret2") Hu).
Defined.

(** X12. [handle_login] never writes to the database.  It hands a user
    to [on_login_success] only when both fields are non-empty, that
    user is a row of the users table with the username typed, and the
    password verifies against the row's hash; it then shows the welcome
    notification.  In every other case it shows one error
    notification. *)
Theorem handle_login_sound `{Bcrypt} (w : World)
    (username password : string) :
  let r := handle_login w username password in
  db r.1 = db w
  ∧ (∀ user, r.2 = Some user →
       user ∈ users (db w)
       ∧ User.username user = username
       ∧ check_password user password = Returns true
       ∧ username ≠ "" ∧ password ≠ ""
       ∧ shown w r.1
         = [mkSnackBar ("Welcome back, " +:+ username +:+ "!") false])
  ∧ (r.2 = None → ∃ msg, shown w r.1 = [mkSnackBar msg true]).
Proof.
  intros r. subst r. unfold handle_login.
  case_decide as He; cbn [fst snd].
  { rewrite shown_snackbar. split; [done|]. split; [done | eauto]. }
  destruct (query_first _ _) as [user|] eqn:Hq; cbn [fst snd].
  - destruct (check_password user password) as [[]|ex] eqn:Hc;
      cbn [fst snd]; rewrite shown_snackbar; (split; [done|]);
      (split; [|by eauto]).
    + intros ? [= <-]. apply query_first_elem in Hq as [Hin Hu].
      repeat split; try done; tauto.
    + done.
    + done.
  - rewrite shown_snackbar. split; [done|]. split; [done | eauto].
Qed.

Lemma handle_login_sound_witness :
  let w :=
    mkWorld (mkDB [User.mk 1 "alice" "a@x.com" "$2b$secret1"] [] [] [] [])
      [] in
  (@handle_login plain_bcrypt w "alice" "secret1").2
  = Some (User.mk 1 "alice" "a@x.com" "$2b$secret1")
  ∧ @check_password plain_bcrypt (User.mk 1 "alice" "a@x.com" "$2b$secret1")
      "secret1" = Returns true.
Proof.
  intros w. split; [reflexivity|].
  exact (proj1 (proj2 (proj2
    (proj1 (proj2 (@handle_login_sound plain_bcrypt w "alice" "secret1"))
       (User.mk 1 "alice" "a@x.com" "$2b$secret1") eq_refl)))).
Defined.

(** X13. Signup then login.  When the hashing library verifies every
    password against the hash it returned for it, a signup that
    succeeded is followed by a successful login with the same username
    and password: the user handed on is the row the signup stored. *)
Theorem signup_then_login `{Bcrypt}
    (any_row : list User.t → option User.t) (w : World)
    (username email password confirm_password : string) :
  bcrypt_correct →
  let r :=
    handle_signup any_row w username email password confirm_password in
  r.2 = true →
  ∃ hash,
    bcrypt_hash password = Returns hash
    ∧ handle_login r.1 username password
      = (show_snackbar r.1 ("Welcome back, " +:+ username +:+ "!") false,
         Some (User.mk (next_id (User.id <$> users (db w))) username email
                 hash)).
Proof.
  intros Hb r Hok.
  destruct (handle_signup_outcome any_row w username email password
              confirm_password)
    as [(_ & _ & (hash & Hh & Hd) & Hc & Hu & _ & _ & Hl)|(Hf & _)];
    fold r in Hd || fold r in Hf; [|congruence].
  exists hash. split; [done|].
  unfold handle_login.
  assert (password ≠ "") by (intros ->; simpl in Hl; lia).
  rewrite decide_False by tauto.
  rewrite Hd. cbn [users set_users]. unfold query_first.
  rewrite filter_app, filter_cons_True, filter_nil by done.
  assert (Hnone : filter (λ u, User.username u = username) (users (db w))
                  = []).
  { apply query_first_None, query_first_None_all.
    intros x Hx Hxu. apply Hc, Exists_exists. exists x.
    split; [done | by left]. }
  rewrite Hnone. cbn [app head]. unfold check_password.
  cbn [User.password_hash]. by rewrite (Hb _ _ Hh).
Qed.

Lemma signup_then_login_witness :
  let w := mkWorld init_database [] in
  let r :=
    @handle_signup plain_bcrypt head w "alice" "a@x.com" "secret1"
      "secret1" in
  @bcrypt_correct plain_bcrypt
  ∧ r.2 = true
  ∧ ∃ hash,
      @bcrypt_hash plain_bcrypt "secret1" = Returns hash
      ∧ @handle_login plain_bcrypt r.1 "alice" "secret1"
        = (show_snackbar r.1 "Welcome back, alice!" false,
           Some (User.mk 1 "alice" "a@x.com" hash)).
Proof.
  intros w r.
  assert (Hb : @bcrypt_correct plain_bcrypt).
  { intros p h. simpl. destruct (has_nul p); [discriminate|].
    intros [= <-]. f_equal. by apply bool_decide_eq_true. }
  split; [exact Hb|]. split; [reflexivity|].
  exact (@signup_then_login plain_bcrypt head w "alice" "a@x.com"
           "secret1" "secret1" Hb eq_refl).
Defined.

(** ** The sidebar: creating, renaming, deleting boards *)

Lemma refresh_board_view_dashboard d w :
  DashboardView.sidebar (refresh_board_view d w).1 = DashboardView.sidebar d
  ∧ DashboardView.current_board (refresh_board_view d w).1
    = DashboardView.current_board d.
Proof.
  unfold refresh_board_view.
  by destruct (BoardView_init _ _ _).
Qed.

Lemma shown_refresh_snackbar d w w1 msg err :
  overlay w1 = overlay w →
  shown w (refresh_board_view d (show_snackbar w1 msg err)).2
  = [mkSnackBar msg err].
Proof.
  intros Ho. unfold shown.
  destruct (refresh_board_view_tables d (show_snackbar w1 msg err))
    as (_ & _ & _ & _ & -> & _).
  unfold show_snackbar. simpl. by rewrite Ho, drop_app_length.
Qed.

Lemma refresh_after_snackbar d w w1 msg err :
  overlay w1 = overlay w →
  DashboardView.sidebar (refresh_board_view d (show_snackbar w1 msg err)).1
  = DashboardView.sidebar d
  ∧ DashboardView.current_board
      (refresh_board_view d (show_snackbar w1 msg err)).1
    = DashboardView.current_board d
  ∧ users (db (refresh_board_view d (show_snackbar w1 msg err)).2)
    = users (db w1)
  ∧ boards (db (refresh_board_view d (show_snackbar w1 msg err)).2)
    = boards (db w1)
  ∧ tasks (db (refresh_board_view d (show_snackbar w1 msg err)).2)
    = tasks (db w1)
  ∧ task_cells (db (refresh_board_view d (show_snackbar w1 msg err)).2)
    = task_cells (db w1)
  ∧ shown w (refresh_board_view d (show_snackbar w1 msg err)).2
    = [mkSnackBar msg err]
  ∧ ∃ new,
      board_columns (db (refresh_board_view d (show_snackbar w1 msg err)).2)
      = (board_columns (db w1) ++ new)%list.
Proof.
  intros Ho.
  destruct (refresh_board_view_tables d (show_snackbar w1 msg err))
    as (Hu & Hb & Ht & Hc & _ & Hcols).
  destruct (refresh_board_view_dashboard d (show_snackbar w1 msg err))
    as (Hs & Hcb).
  cbv zeta in Hu, Hb, Ht, Hc, Hcols.
  rewrite Hs, Hcb, Hu, Hb, Ht, Hc, (shown_refresh_snackbar d w w1) by done.
  repeat split; try done.
Qed.

Ltac after_refresh w H :=
  match goal with
  | |- context [refresh_board_view ?d0 (show_snackbar ?w1 ?m ?e)] =>
      destruct (refresh_after_snackbar d0 w w1 m e eq_refl)
        as (H & ?Hcb & ?Hu & ?Hb & ?Ht & ?Hc & ?Hsh & ?Hcols)
  end.



(** X15. Renaming a board that exists, in the database branch, with a
    non-empty name: the row with the board's id carries the new name
    and keeps its id and its owner, a lookup by the id returns it, the
    other rows are as before, no task and no cell changes, and the one
    notification is "Board renamed to ...". *)
Theorem rename_board_renames (d : DashboardView.t) (w : World)
    (b : BoardRef.t) (new_name : string) (db_board : Board.t) :
  new_name ≠ "" →
  BoardSidebar.is_guest (DashboardView.sidebar d) = false →
  query_first (λ x, Board.id x = BoardRef.id b) (boards (db w))
  = Some db_board →
  let r := rename_board d w b new_name in
  boards (db r.2)
  = (λ x, if decide (Board.id x = BoardRef.id b)
          then Board.mk (Board.id x) new_name (Board.user_id x) else x)
      <$> boards (db w)
  ∧ query_first (λ x, Board.id x = BoardRef.id b) (boards (db r.2))
    = Some (Board.mk (BoardRef.id b) new_name (Board.user_id db_board))
  ∧ tasks (db r.2) = tasks (db w)
  ∧ task_cells (db r.2) = task_cells (db w)
  ∧ shown w r.2
    = [mkSnackBar ("Board renamed to '" +:+ new_name +:+ "'") false].
Proof.
  intros Hn Hg Hq r. subst r. unfold rename_board.
  rewrite decide_False, Hg, Hq by done.
  after_refresh w Hs. rewrite Hb, Ht, Hc, Hsh.
  pose proof (query_first_elem _ _ _ Hq) as [_ Hid].
  assert (Hbs : boards (db (set_db w (update_Board_name (db w) db_board
                                       new_name)))
                = (λ x, if decide (Board.id x = BoardRef.id b)
                        then Board.mk (Board.id x) new_name (Board.user_id x)
                        else x) <$> boards (db w)).
  { unfold update_Board_name. cbn [db set_db boards set_boards].
    by rewrite Hid. }
  rewrite Hbs. repeat split; try done.
  unfold query_first in *.
  rewrite filter_fmap_stable by (intros x; by case_decide).
  destruct (filter _ (boards (db w))) as [|x l]; [done|].
  simpl in Hq. injection Hq as ->. rewrite fmap_cons. simpl.
  by rewrite decide_True, Hid by done.
Qed.

Lemma rename_board_renames_witness :
  let d := DashboardView_init (Some 1) false in
  let w :=
    mkWorld
      (mkDB [User.mk 1 "alice" "a@x.com" "hash"]
         [Board.mk 1 "Demo" 1; Board.mk 2 "Home" 1] [] [] []) [] in
  "Work" ≠ ""
  ∧ boards (db (rename_board d w (BoardRef.mk 1 "Demo") "Work").2)
    = [Board.mk 1 "Work" 1; Board.mk 2 "Home" 1].
Proof.
  intros d w.
  assert (Hn : "Work" ≠ "") by discriminate.
  split; [exact Hn|].
  exact (eq_trans
           (proj1 (rename_board_renames d w (BoardRef.mk 1 "Demo") "Work"
                     (Board.mk 1 "Demo" 1) Hn eq_refl eq_refl))
           eq_refl).
Defined.

(** X16. Deleting a board, in the database branch, removes nothing of
    another board: every other board row, every column and task of
    another board, and every cell of such a task is still stored.  The
    task ids must be unique, since the cascade deletes tasks and cells
    by task id. *)
Theorem delete_board_other_boards (d : DashboardView.t) (w : World)
    (b : BoardRef.t) :
  BoardSidebar.is_guest (DashboardView.sidebar d) = false →
  NoDup (Task.id <$> tasks (db w)) →
  let r := delete_board d w b in
  (∀ x, x ∈ boards (db w) → Board.id x ≠ BoardRef.id b →
        x ∈ boards (db r.2))
  ∧ (∀ c, c ∈ board_columns (db w) →
          BoardColumn.board_id c ≠ BoardRef.id b →
          c ∈ board_columns (db r.2))
  ∧ (∀ t, t ∈ tasks (db w) → Task.board_id t ≠ BoardRef.id b →
          t ∈ tasks (db r.2))
  ∧ (∀ t c, t ∈ tasks (db w) → Task.board_id t ≠ BoardRef.id b →
            c ∈ task_cells (db w) → TaskCell.task_id c = Task.id t →
            c ∈ task_cells (db r.2)).
Proof.
  intros Hg Hnd r. subst r. unfold delete_board. rewrite Hg.
  destruct (query_first _ _) as [db_board|] eqn:Hq; cbn [fst snd];
    [|by repeat split].
  apply query_first_elem in Hq as [_ Hid].
  after_refresh w Hs. rewrite Hb, Ht, Hc.
  destruct Hcols as [new ->].
  unfold session_delete_Board.
  cbn [db set_db boards board_columns tasks task_cells].
  set (ts := filter (λ t, Task.board_id t = Board.id db_board)
               (tasks (db w))).
  destruct (foldl_delete_Task_parents ts (db w)) as (Hfb & Hfc & _).
  rewrite Hfb, Hfc, Hid.
  assert (Hts : ∀ t t', t ∈ tasks (db w) → Task.board_id t ≠ BoardRef.id b →
                        t' ∈ ts → Task.id t ≠ Task.id t').
  { intros t t' Hin Hbid [Hb' Hin']%list_elem_of_filter Heq.
    rewrite (NoDup_fmap_eq Task.id _ t t' Hnd Hin Hin' Heq) in Hbid.
    congruence. }
  repeat split.
  - intros x Hx Hne. by apply list_elem_of_filter.
  - intros c Hin Hne. apply elem_of_app. left.
    by apply list_elem_of_filter.
  - intros t Hin Hne. apply foldl_delete_Task_tasks. split; [done|].
    intros t' Ht'. by apply Hts.
  - intros t c Hin Hne Hcin Htid. apply foldl_delete_Task_cells.
    split; [done|]. intros t' Ht'. rewrite Htid. by apply Hts.
Qed.

Lemma delete_board_other_boards_witness :
  let d := DashboardView_init (Some 1) false in
  let w :=
    mkWorld
      (mkDB [User.mk 1 "alice" "a@x.com" "hash"]
         [Board.mk 1 "Demo" 1; Board.mk 2 "Home" 1]
         [BoardColumn.mk 1 1 "Status" "status" 0;
          BoardColumn.mk 2 2 "Status" "status" 0]
         [Task.mk 1 1 "New Task 1" 0; Task.mk 2 2 "New Task 1" 0]
         [TaskCell.mk 1 1 1 "Done"; TaskCell.mk 2 2 2 "Stuck"]) [] in
  NoDup (Task.id <$> tasks (db w))
  ∧ TaskCell.mk 2 2 2 "Stuck"
    ∈ task_cells (db (delete_board d w (BoardRef.mk 1 "Demo")).2)
  ∧ task_cells (db (delete_board d w (BoardRef.mk 1 "Demo")).2)
    = [TaskCell.mk 2 2 2 "Stuck"].
Proof.
  intros d w.
  assert (Hnd : NoDup (Task.id <$> tasks (db w))) by (simpl; compute_done).
  split; [exact Hnd|]. split; [|reflexivity].
  apply (proj2 (proj2 (proj2
           (delete_board_other_boards d w (BoardRef.mk 1 "Demo") eq_refl
              Hnd))) (Task.mk 2 2 "New Task 1" 0)).
  - simpl. set_solver.
  - simpl. lia.
  - simpl. set_solver.
  - reflexivity.
Defined.

(** X17. Selecting, creating or renaming a board never removes or
    alters a stored task, cell or column: the tasks and the cells
    tables are unchanged, and the columns table can only have grown at
    its end (by the default columns of the board on display).  Only
    deleting a board removes rows. *)
Theorem sidebar_keeps_rows (dw : DashboardView.t * World)
    (a : SidebarAction) :
  (∀ b, a ≠ DeleteBoard b) →
  let r := sidebar_step dw a in
  tasks (db r.2) = tasks (db dw.2)
  ∧ task_cells (db r.2) = task_cells (db dw.2)
  ∧ ∃ new, board_columns (db r.2) = (board_columns (db dw.2) ++ new)%list.
Proof.
  destruct dw as [d w]. intros Hnd r. subst r.
  assert (Hidle : tasks (db w) = tasks (db w)
                  ∧ task_cells (db w) = task_cells (db w)
                  ∧ ∃ new, board_columns (db w)
                           = (board_columns (db w) ++ new)%list).
  { repeat split. exists []. by rewrite app_nil_r. }
  destruct a as [b|n|b n|b]; cbn [sidebar_step fst snd].
  - unfold select_board, handle_board_select.
    destruct (refresh_board_view_tables
                (DashboardView.set_current_board
                   (DashboardView.set_sidebar d
                      (BoardSidebar.set_selected_board_id
                         (DashboardView.sidebar d) (Some (BoardRef.id b))))
                   (Some b)) w) as (_ & _ & Ht & Hc & _ & Hcols).
    by repeat split.
  - unfold create_board. case_decide; [done|].
    destruct (BoardSidebar.is_guest _).
    + after_refresh w Hs. rewrite Ht, Hc. by repeat split.
    + destruct (BoardSidebar.user_id _); [|done].
      after_refresh w Hs. rewrite Ht, Hc. by repeat split.
  - unfold rename_board. case_decide; [done|].
    destruct (BoardSidebar.is_guest _).
    + after_refresh w Hs. rewrite Ht, Hc. by repeat split.
    + destruct (query_first _ _); [|done].
      after_refresh w Hs. rewrite Ht, Hc. by repeat split.
  - by destruct (Hnd b).
Qed.

Lemma sidebar_keeps_rows_witness :
  let d := DashboardView_init (Some 1) false in
  let w :=
    mkWorld
      (mkDB [User.mk 1 "alice" "a@x.com" "hash"]
         [Board.mk 1 "Demo" 1; Board.mk 2 "Home" 1]
         [BoardColumn.mk 1 1 "Status" "status" 0]
         [Task.mk 1 1 "New Task 1" 0] [TaskCell.mk 1 1 1 "Done"]) [] in
  let r := sidebar_step (d, w) (SelectBoard (BoardRef.mk 2 "Home")) in
  (∀ b, SelectBoard (BoardRef.mk 2 "Home") ≠ DeleteBoard b)
  ∧ task_cells (db r.2) = [TaskCell.mk 1 1 1 "Done"]
  ∧ length (board_columns (db r.2)) = 4%nat.
Proof.
  intros d w r.
  assert (Hnd : ∀ b, SelectBoard (BoardRef.mk 2 "Home") ≠ DeleteBoard b)
    by (intros b; discriminate).
  split; [exact Hnd|]. split; [|reflexivity].
  exact (proj1 (proj2 (sidebar_keeps_rows (d, w)
                         (SelectBoard (BoardRef.mk 2 "Home")) Hnd))).
Defined.




(** ** The status cycle, again *)

Lemma next_status_in_cycle v : next_status v ∈ fst <$> STATUS_OPTIONS.
Proof. unfold next_status. repeat case_decide; simpl; set_solver. Qed.

Lemma next_status_four v :
  v ∈ fst <$> STATUS_OPTIONS →
  next_status (next_status (next_status (next_status v))) = v.
Proof.
  simpl. rewrite !elem_of_cons, elem_of_nil.
  intros [->|[->|[->|[->|[]]]]]; reflexivity.
Qed.

Lemma iter_shift {A} (f : A → A) (n : nat) (x : A) :
  Nat.iter n f (f x) = f (Nat.iter n f x).
Proof. induction n as [|n IH]; [done|]. simpl. by rewrite IH. Qed.

(** X19. After one click or more a status cell holds one of the four
    statuses, whatever it held before; and once its value is one of the
    four, four more clicks bring the same value back. *)
Theorem cycle_status_period (self : TaskTableView) (w : World) (t c : Z)
    (n : nat) :
  read_cell (cycle_status_n (S n) self w t c) t c ∈ fst <$> STATUS_OPTIONS
  ∧ (get_cell_value self w t c ∈ fst <$> STATUS_OPTIONS →
     read_cell (cycle_status_n (4 + n) self w t c) t c
     = read_cell (cycle_status_n n self w t c) t c).
Proof.
  rewrite !cycle_status_n_read. split.
  - simpl. apply next_status_in_cycle.
  - intros Hin. rewrite Nat.iter_add.
    assert (Hn : Nat.iter n next_status (get_cell_value self w t c)
                 ∈ fst <$> STATUS_OPTIONS).
    { destruct n as [|n]; [done|]. simpl. apply next_status_in_cycle. }
    simpl. by apply next_status_four.
Qed.

Lemma cycle_status_period_witness :
  let self := mkTaskTableView (BoardRef.mk 1 "Demo") true [] [] ∅ 0 0 in
  let sw := update_cell self (mkWorld init_database []) 1 1 "Stuck" in
  get_cell_value sw.1 sw.2 1 1 ∈ fst <$> STATUS_OPTIONS
  ∧ read_cell (cycle_status_n 4 sw.1 sw.2 1 1) 1 1 = "Stuck".
Proof.
  intros self sw.
  assert (Hin : get_cell_value sw.1 sw.2 1 1 ∈ fst <$> STATUS_OPTIONS)
    by (vm_compute; set_solver).
  split; [exact Hin|].
  exact (eq_trans (proj2 (cycle_status_period sw.1 sw.2 1 1 0) Hin) eq_refl).
Defined.
